(** * CSkit-Consumer: session store, cart store and product dashboard

  A shallow embedding of [src/app/lib/auth.tsx] (the [AuthProvider]
  callbacks) and of [src/app/consumer/page.tsx] (the callbacks of
  [ConsumerDashboard]), with the submit handler of the profile page.

  React state is a record with one field per [useState] cell; a callback is
  a function from the browser and the component state before the call to
  the browser and the state once the queued updates have been applied.
  The browser holds what the callbacks reach outside React: [localStorage],
  the console, the router, the network and the clock.

  Modelling choices, all visible in the definitions below:
  - TypeScript's types are erased: the data that comes out of [JSON.parse]
    and [response.json()] is held as the JavaScript value it is, and a
    property read can throw;
  - a string is the sequence of the bytes of its UTF-8 text, so that
    [includes] finds exactly the occurrences the program finds;
  - a number is an integer, or any other finite number named by the text
    [Number.prototype.toString] gives it;
  - [localStorage] is an unbounded finite map from keys to strings;
  - [JSON.parse] and [String.prototype.toLowerCase] belong to the JavaScript
    runtime: the callbacks that call them take them as parameters, [None]
    standing for a [SyntaxError] thrown by the parser. *)

From Stdlib Require Import ZArith Ascii String List.
From stdpp Require Import base decidable option list strings pretty gmap.

Set Warnings "-register-all".

Local Open Scope string_scope.
Local Open Scope Z_scope.

(** ** JavaScript values, strings and JSON.stringify *)

Module JS.

(** A finite number: an integer, or another number, held as the text that
    [Number.prototype.toString] gives it (one text per number). *)
Inductive number : Type :=
| Int (z : Z)
| Frac (text : string).

(** [===] on two numbers. *)
Definition number_eqb (a b : number) : bool :=
  match a, b with
  | Int x, Int y => x =? y
  | Frac s, Frac t => String.eqb s t
  | _, _ => false
  end.

Definition Number_toString (n : number) : string :=
  match n with
  | Int z => pretty z
  | Frac text => text
  end.

(** What [JSON.parse] can return and [JSON.stringify] can print. An object
    is the sequence of its properties in insertion order. *)
Inductive value : Type :=
| Null
| Bool (b : bool)
| Num (n : number)
| Str (s : string)
| Arr (items : list value)
| Obj (props : list (string * value)).

(** How the evaluation of an expression ends: with a value, or with a
    [TypeError] thrown. *)
Inductive completion (A : Type) : Type :=
| Returned (a : A)
| Threw.

Arguments Returned {A} a.
Arguments Threw {A}.

(** The first property named [k]. *)
Fixpoint assoc (k : string) (props : list (string * value)) : option value :=
  match props with
  | [] => None
  | (k', x) :: rest => if String.eqb k k' then Some x else assoc k rest
  end.

(** [v.k] for a property name that no prototype defines ([id], [name],
    [category]): reading from [null] throws, an object answers with its own
    property, every other value with [undefined] ([None]). *)
Definition get (k : string) (v : value) : completion (option value) :=
  match v with
  | Null => Threw
  | Obj props => Returned (assoc k props)
  | _ => Returned None
  end.

(** [Array.prototype.some] with a callback that can throw: the callback is
    run from the first entry on, until it answers true or throws. *)
Fixpoint Array_some (f : value -> completion bool) (items : list value)
  : completion bool :=
  match items with
  | [] => Returned false
  | item :: rest =>
      match f item with
      | Returned true => Returned true
      | Returned false => Array_some f rest
      | Threw => Threw
      end
  end.

(** [Array.prototype.filter] with a callback that can throw. *)
Fixpoint Array_filter (f : value -> completion bool) (items : list value)
  : completion (list value) :=
  match items with
  | [] => Returned []
  | item :: rest =>
      match f item with
      | Returned keep =>
          match Array_filter f rest with
          | Returned kept => Returned (if keep then item :: kept else kept)
          | Threw => Threw
          end
      | Threw => Threw
      end
  end.

(** [ToBoolean] on a string: only the empty string is falsy. *)
Definition truthy (s : string) : bool :=
  match s with
  | EmptyString => false
  | String _ _ => true
  end.

(** [ToBoolean] on a value. *)
Definition truthy_value (v : value) : bool :=
  match v with
  | Null => false
  | Bool b => b
  | Num (Int z) => negb (z =? 0)
  | Num (Frac _) => true
  | Str s => truthy s
  | Arr _ | Obj _ => true
  end.

(** [ToBoolean] on what [Storage.getItem] returns ([null] or a string). *)
Definition truthy_item (o : option string) : bool :=
  match o with
  | None => false
  | Some s => truthy s
  end.

(** [t] is an initial segment of [s]. *)
Fixpoint startsWith (s t : string) : bool :=
  match t, s with
  | EmptyString, _ => true
  | String _ _, EmptyString => false
  | String d t', String c s' => if Ascii.eqb c d then startsWith s' t' else false
  end.

(** [String.prototype.includes]: [t] occurs in [s] at some position. *)
Fixpoint includes (s t : string) : bool :=
  startsWith s t ||
  match s with
  | EmptyString => false
  | String _ s' => includes s' t
  end.

Definition dquote : ascii := "034"%char.
Definition backslash : ascii := "092"%char.

Definition hex_digit (n : N) : ascii :=
  if (n <? 10)%N then ascii_of_N (48 + n) else ascii_of_N (87 + n).

(** One character inside a JSON string literal (QuoteJSONString). *)
Definition escape_char (c : ascii) : string :=
  let n := N_of_ascii c in
  if (n =? 34)%N then String backslash (String dquote EmptyString)
  else if (n =? 92)%N then String backslash (String backslash EmptyString)
  else if (n =? 8)%N then String backslash "b"
  else if (n =? 9)%N then String backslash "t"
  else if (n =? 10)%N then String backslash "n"
  else if (n =? 12)%N then String backslash "f"
  else if (n =? 13)%N then String backslash "r"
  else if (n <? 32)%N then
    String backslash
      (String "u" (String "0" (String "0"
        (String (hex_digit (n / 16)) (String (hex_digit (n mod 16)) EmptyString)))))
  else String c EmptyString.

Fixpoint escape (s : string) : string :=
  match s with
  | EmptyString => EmptyString
  | String c s' => escape_char c +:+ escape s'
  end.

Definition quote (s : string) : string :=
  String dquote (escape s +:+ String dquote EmptyString).

(** [Array.prototype.join] on strings. *)
Fixpoint join (sep : string) (l : list string) : string :=
  match l with
  | [] => EmptyString
  | [x] => x
  | x :: l' => x +:+ sep +:+ join sep l'
  end.

(** [JSON.stringify] without indentation. *)
Fixpoint JSON_stringify (v : value) : string :=
  match v with
  | Null => "null"
  | Bool true => "true"
  | Bool false => "false"
  | Num n => Number_toString n
  | Str s => quote s
  | Arr items => "[" +:+ join "," (List.map JSON_stringify items) +:+ "]"
  | Obj props =>
      "{" +:+
      join "," (List.map (fun kv => let '(k, x) := kv in
                                    quote k +:+ ":" +:+ JSON_stringify x) props)
      +:+ "}"
  end.

End JS.

(** ** The browser *)

Module Web.

Record Browser : Type := mkBrowser {
  localStorage : gmap string string;
  console : list string;      (* one text per call of console.error / console.log:
                                 the label, then the data of the program that
                                 was logged with it; a caught error object is
                                 not rendered *)
  route : list string;        (* targets passed to router.push, oldest first *)
  requests : list string;     (* URLs passed to fetch, oldest first *)
  clock : Z;                  (* what Date.now() returns *)
  darkClass : bool            (* "dark" in document.documentElement.classList *)
}.

Definition getItem (k : string) (w : Browser) : option string :=
  localStorage w !! k.

Definition setItem (k v : string) (w : Browser) : Browser :=
  mkBrowser (<[k := v]> (localStorage w)) (console w) (route w) (requests w)
            (clock w) (darkClass w).

Definition removeItem (k : string) (w : Browser) : Browser :=
  mkBrowser (delete k (localStorage w)) (console w) (route w) (requests w)
            (clock w) (darkClass w).

Definition console_write (msg : string) (w : Browser) : Browser :=
  mkBrowser (localStorage w) (console w ++ [msg]) (route w) (requests w)
            (clock w) (darkClass w).

Definition router_push (path : string) (w : Browser) : Browser :=
  mkBrowser (localStorage w) (console w) (route w ++ [path]) (requests w)
            (clock w) (darkClass w).

Definition fetch (url : string) (w : Browser) : Browser :=
  mkBrowser (localStorage w) (console w) (route w) (requests w ++ [url])
            (clock w) (darkClass w).

Definition classList_toggle_dark (force : bool) (w : Browser) : Browser :=
  mkBrowser (localStorage w) (console w) (route w) (requests w) (clock w) force.

(** The environment moves the clock; nothing in the program does. *)
Definition set_clock (t : Z) (w : Browser) : Browser :=
  mkBrowser (localStorage w) (console w) (route w) (requests w) t (darkClass w).

Definition Date_now (w : Browser) : Z := clock w.

End Web.

(** ** Session store: src/app/lib/auth.tsx *)

Module Auth.
Import JS Web.

Inductive UserRole : Type := consumer.

Record User : Type := mkUser {
  id : string;
  email : string;
  username : string;
  role : UserRole
}.

Definition UserRole_to_string (r : UserRole) : string :=
  match r with consumer => "consumer" end.

(** The object literal [newUser] as [JSON.stringify] sees it. *)
Definition User_to_value (u : User) : value :=
  Obj [("id", Str (id u)); ("email", Str (email u));
       ("username", Str (username u)); ("role", Str (UserRole_to_string (role u)))].

(** [const [user, setUser] = useState<User | null>(null)] *)
Record State : Type := mkState { user : option User }.

Definition initial : State := mkState None.

Definition setUser (u : option User) (st : State) : State := mkState u.

Definition login (email username : string) (ws : Browser * State) : Browser * State :=
  let '(w, st) := ws in
  let newUser := mkUser (pretty (Date_now w)) email username consumer in
  let st := setUser (Some newUser) st in
  let w := setItem "user" (JSON_stringify (User_to_value newUser)) w in
  let w := router_push "/consumer" w in
  (w, st).

Definition logout (ws : Browser * State) : Browser * State :=
  let '(w, st) := ws in
  let st := setUser None st in
  let w := removeItem "user" w in
  let w := router_push "/" w in
  (w, st).

Definition isLoggedIn (w : Browser) : bool :=
  truthy_item (getItem "user" w).

(** The identifier held by the session, if there is one. *)
Definition session_id (ws : Browser * State) : option string :=
  id <$> user ws.2.

(** The runtime values that inhabit the declared type [User]: the objects
    with the four declared properties, each a string and the role the one
    role there is, in any order and beside any other property. The record
    keeps the declared properties, which are all the program reads. *)
Definition as_User (v : value) : option User :=
  match v with
  | Obj props =>
      match assoc "id" props, assoc "email" props,
            assoc "username" props, assoc "role" props with
      | Some (Str i), Some (Str e), Some (Str u), Some (Str r) =>
          if String.eqb r "consumer" then Some (mkUser i e u consumer) else None
      | _, _, _, _ => None
      end
  | _ => None
  end.

(** How the effect of [AuthProvider] (lines 30 to 33) ends: the cell holds a
    value of its declared type [User | null], or [JSON.parse] threw and
    nothing caught it, or the cell holds a value outside its declared type. *)
Inductive restored : Type :=
| Restored (st : State)
| Threw
| Untyped.

Section Runtime.

(** [JSON.parse]; [None] when it throws. *)
Variable JSON_parse : string -> option value.

(** The effect run when [AuthProvider] mounts. *)
Definition restoreSession (ws : Browser * State) : restored :=
  let '(w, st) := ws in
  match getItem "user" w with
  | Some storedUser =>
      if truthy storedUser then
        match JSON_parse storedUser with
        | None => Threw
        | Some Null => Restored (setUser None st)
        | Some v =>
            match as_User v with
            | Some u => Restored (setUser (Some u) st)
            | None => Untyped
            end
        end
      else Restored st
  | None => Restored st
  end.

End Runtime.

End Auth.

(** ** Profile editor: src/unnamed/part_000 *)

Module Profile.
Import JS Web.

(** The [useState] cells of [ProfilePage]. *)
Record State : Type := mkState {
  username : string;
  email : string;
  phone : string
}.

(** [user?.username || ""], [user?.email || ""] and [""]. *)
Definition initial (user : option Auth.User) : State :=
  mkState (match user with Some u => Auth.username u | None => "" end)
          (match user with Some u => Auth.email u | None => "" end)
          "".

(** The object [{ username, email, phone }] of line 26. *)
Definition logged (form : State) : value :=
  Obj [("username", Str (username form)); ("email", Str (email form));
       ("phone", Str (phone form))].

(** One call of [console.log] with a label and a value of the program: the
    label, a space and the JSON text of the value. *)
Definition console_log (label : string) (v : value) (w : Browser) : Browser :=
  console_write (label +:+ " " +:+ JSON_stringify v) w.

Definition handleProfileUpdate (form : State) (ws : Browser * Auth.State)
  : Browser * Auth.State :=
  let '(w, session) := ws in
  match Auth.user session with
  | Some _ =>
      let '(w, session) := Auth.login (email form) (username form) (w, session) in
      (console_log "Profile updated:" (logged form) w, session)
  | None => (w, session)
  end.

End Profile.

(** ** Consumer dashboard: src/app/consumer/page.tsx *)

Module Dashboard.
Import JS Web.

Inductive Category : Type := material | machine | worker.

Definition Category_to_string (c : Category) : string :=
  match c with
  | material => "material"
  | machine => "machine"
  | worker => "worker"
  end.

(** The declared type [Product]. The cells below hold the objects the
    catalog and the storage delivered, whatever their shape; this record is
    the shape they are declared to have. *)
Record Product : Type := mkProduct {
  id : number;
  name : string;
  price : number;
  image : string;
  description : string;
  category : Category
}.

(** A [Product] as a JavaScript object, properties in declaration order. *)
Definition Product_to_value (p : Product) : value :=
  Obj [("id", Num (id p)); ("name", Str (name p)); ("price", Num (price p));
       ("image", Str (image p)); ("description", Str (description p));
       ("category", Str (Category_to_string (category p)))].

(** [item.id === productId], the callback of [isInCart]. *)
Definition has_id (productId : number) (item : value) : completion bool :=
  match get "id" item with
  | Returned (Some (Num n)) => Returned (number_eqb n productId)
  | Returned _ => Returned false
  | Threw => Threw
  end.

(** [p.category === "material"] and its two siblings, the callbacks of
    [fetchProducts]. *)
Definition in_category (c : Category) (p : value) : completion bool :=
  match get "category" p with
  | Returned (Some (Str s)) => Returned (String.eqb s (Category_to_string c))
  | Returned _ => Returned false
  | Threw => Threw
  end.

(** The identifier, the name and the category of an entry, where it has
    one of the declared type. *)
Definition id_of (item : value) : option number :=
  match get "id" item with
  | Returned (Some (Num n)) => Some n
  | _ => None
  end.

Definition name_of (item : value) : option string :=
  match get "name" item with
  | Returned (Some (Str s)) => Some s
  | _ => None
  end.

Definition category_of (item : value) : option Category :=
  match get "category" item with
  | Returned (Some (Str s)) =>
      if String.eqb s "material" then Some material
      else if String.eqb s "machine" then Some machine
      else if String.eqb s "worker" then Some worker
      else None
  | _ => None
  end.

Definition not_Null (v : value) : Prop :=
  match v with Null => False | _ => True end.

(** [displayedProducts]: one bucket per category. The fields carry a suffix
    because the category constructors already use the bare names. *)
Record Displayed : Type := mkDisplayed {
  material_bucket : list value;
  machine_bucket : list value;
  worker_bucket : list value
}.

(** [displayedProducts[category]] *)
Definition bucket (d : Displayed) (c : Category) : list value :=
  match c with
  | material => material_bucket d
  | machine => machine_bucket d
  | worker => worker_bucket d
  end.

(** The [useState] cells of [ConsumerDashboard]. [allProducts] receives
    whatever [response.json()] delivered. *)
Record State : Type := mkState {
  cartCount : Z;
  searchTerm : string;
  allProducts : value;
  displayedProducts : Displayed;
  cart : list value;
  selectedProduct : option value;
  isLoading : bool;
  darkMode : bool
}.

Definition initial : State :=
  mkState 0 "" (Arr []) (mkDisplayed [] [] []) [] None true false.

Definition setCartCount (n : Z) (st : State) : State :=
  mkState n (searchTerm st) (allProducts st) (displayedProducts st) (cart st)
          (selectedProduct st) (isLoading st) (darkMode st).

Definition setSearchTerm (s : string) (st : State) : State :=
  mkState (cartCount st) s (allProducts st) (displayedProducts st) (cart st)
          (selectedProduct st) (isLoading st) (darkMode st).

Definition setAllProducts (data : value) (st : State) : State :=
  mkState (cartCount st) (searchTerm st) data (displayedProducts st) (cart st)
          (selectedProduct st) (isLoading st) (darkMode st).

Definition setDisplayedProducts (d : Displayed) (st : State) : State :=
  mkState (cartCount st) (searchTerm st) (allProducts st) d (cart st)
          (selectedProduct st) (isLoading st) (darkMode st).

Definition setCart (c : list value) (st : State) : State :=
  mkState (cartCount st) (searchTerm st) (allProducts st) (displayedProducts st) c
          (selectedProduct st) (isLoading st) (darkMode st).

Definition setSelectedProduct (p : option value) (st : State) : State :=
  mkState (cartCount st) (searchTerm st) (allProducts st) (displayedProducts st) (cart st)
          p (isLoading st) (darkMode st).

Definition setIsLoading (b : bool) (st : State) : State :=
  mkState (cartCount st) (searchTerm st) (allProducts st) (displayedProducts st) (cart st)
          (selectedProduct st) b (darkMode st).

Definition setDarkMode (b : bool) (st : State) : State :=
  mkState (cartCount st) (searchTerm st) (allProducts st) (displayedProducts st) (cart st)
          (selectedProduct st) (isLoading st) b.

(** What a callback leaves in the [useState] cells. The cart cell is read
    as an array and the identifier of the selected product as a number; when
    [loadCart] stores a value that is not an array, or the button of the
    dialog meets an identifier that is not a number, the state is [Untyped]
    and the records above no longer describe it. *)
Inductive outcome : Type :=
| Typed (st : State)
| Untyped.

(** How [await fetch(url)] followed by [await response.json()] can end:
    the request is rejected, or a response arrives with the given body. *)
Inductive FetchResult : Type :=
| Rejected
| Body (text : string).

Definition cart_to_value (c : list value) : value := Arr c.

Definition isInCart (st : State) (productId : number) : completion bool :=
  Array_some (has_id productId) (cart st).

Definition addToCart (product : value) (ws : Browser * State) : Browser * State :=
  let '(w, st) := ws in
  let updatedCart := (cart st ++ [product])%list in
  let w := setItem "cart" (JSON_stringify (cart_to_value updatedCart)) w in
  let st := setCart updatedCart st in
  let st := setCartCount (cartCount st + 1) st in
  let st := setSelectedProduct None st in
  (w, st).

Definition openProductDialog (product : value) (st : State) : State :=
  setSelectedProduct (Some product) st.

Definition handleSearch (ws : Browser * State) : Browser * State :=
  let '(w, st) := ws in
  (console_write ("Searching for:" +:+ " " +:+ searchTerm st) w, st).

Definition toggleDarkMode (ws : Browser * State) : Browser * State :=
  let '(w, st) := ws in
  let newDarkMode := negb (darkMode st) in
  let st := setDarkMode newDarkMode st in
  let w := setItem "darkMode" (if newDarkMode then "true" else "false") w in
  let w := classList_toggle_dark newDarkMode w in
  (w, st).

Definition typed (ws : Browser * State) : Browser * outcome :=
  (ws.1, Typed ws.2).

(** The button of the detail dialog (lines 302 to 308). The dialog exists
    only while the selected product is truthy. A [TypeError] thrown by
    [isInCart] leaves the handler before it has done anything. *)
Definition dialogButton (ws : Browser * State) : Browser * outcome :=
  let '(w, st) := ws in
  match selectedProduct st with
  | None => (w, Typed st)
  | Some selected =>
      if truthy_value selected then
        match get "id" selected with
        | Returned (Some (Num productId)) =>
            match isInCart st productId with
            | Returned true => (router_push "/cart" w, Typed st)
            | Returned false => typed (addToCart selected (w, st))
            | Threw => (w, Typed st)
            end
        | _ => (w, Untyped)
        end
      else (w, Typed st)
  end.

Section Runtime.

(** [JSON.parse]; [None] when it throws. *)
Variable JSON_parse : string -> option value.

(** [String.prototype.toLowerCase]. *)
Variable toLowerCase : string -> string.

(** [product.name.toLowerCase().includes(searchTerm.toLowerCase())], the
    callback of [filteredProducts]: a name that is not a string has no
    method [toLowerCase]. *)
Definition name_matches (term : string) (product : value) : completion bool :=
  match get "name" product with
  | Returned (Some (Str s)) => Returned (includes (toLowerCase s) (toLowerCase term))
  | _ => Threw
  end.

Definition filteredProducts (st : State) (c : Category) : completion (list value) :=
  Array_filter (name_matches (searchTerm st)) (bucket (displayedProducts st) c).

(** The catch block of [loadCart]. *)
Definition loadCart_catch (ws : Browser * State) : Browser * outcome :=
  let '(w, st) := ws in
  let w := console_write "Error loading cart:" w in
  let st := setCart [] st in
  let st := setCartCount 0 st in
  (w, Typed st).

Definition loadCart (ws : Browser * State) : Browser * outcome :=
  let '(w, st) := ws in
  match getItem "cart" w with
  | Some storedCart =>
      if truthy storedCart then
        match JSON_parse storedCart with
        | None => loadCart_catch (w, st)                 (* SyntaxError *)
        | Some Null => loadCart_catch (w, st)            (* null.length: TypeError *)
        | Some (Arr parsedCart) =>
            let st := setCart parsedCart st in
            let st := setCartCount (Z.of_nat (length parsedCart)) st in
            (w, Typed st)
        | Some _ => (w, Untyped)
        end
      else (w, Typed st)
  | None => (w, Typed st)
  end.

(** [fetchProducts] up to its first [await]. *)
Definition fetchProducts_begin (ws : Browser * State) : Browser * State :=
  let '(w, st) := ws in
  let st := setIsLoading true st in
  let w := fetch "/api/products" w in
  (w, st).

(** The catch and finally blocks of [fetchProducts]. *)
Definition fetchProducts_catch (ws : Browser * State) : Browser * State :=
  let '(w, st) := ws in
  let w := console_write "Error fetching products:" w in
  let st := setIsLoading false st in
  (w, st).

Definition by_category (c : Category) (data : list value) : completion (list value) :=
  Array_filter (in_category c) data.

(** [fetchProducts] from the moment the request settles. [setAllProducts]
    has run before the three filters are tried; a value without [filter],
    or a callback that throws, leads to the catch block with the buckets as
    they were. *)
Definition fetchProducts_settle (r : FetchResult) (ws : Browser * State)
  : Browser * State :=
  let '(w, st) := ws in
  match r with
  | Rejected => fetchProducts_catch (w, st)
  | Body text =>
      match JSON_parse text with
      | None => fetchProducts_catch (w, st)
      | Some data =>
          let st := setAllProducts data st in
          match data with
          | Arr items =>
              match by_category material items, by_category machine items,
                    by_category worker items with
              | Returned materials, Returned machines, Returned workers =>
                  let st := setDisplayedProducts
                              (mkDisplayed materials machines workers) st in
                  let st := setIsLoading false st in
                  (w, st)
              | _, _, _ => fetchProducts_catch (w, st)
              end
          | _ => fetchProducts_catch (w, st)
          end
      end
  end.

(** One complete run of [fetchProducts] whose request ends as [r]. *)
Definition fetchProducts (r : FetchResult) (ws : Browser * State) : Browser * State :=
  fetchProducts_settle r (fetchProducts_begin ws).

(** The first render and its effects. Without a session the component
    returns at line 53 with only the effect of lines 46 to 50 registered,
    which sends the router to the entry page. With a session that effect
    does nothing and the one of lines 90 to 97 starts a fetch, loads the
    cart and restores the theme. *)
Definition mount (user : option Auth.User) (ws : Browser * State) : Browser * outcome :=
  match user with
  | None => (router_push "/" ws.1, Typed ws.2)
  | Some _ =>
      let '(w, st) := fetchProducts_begin ws in
      let '(w, loaded) := loadCart (w, st) in
      let isDarkMode :=
        match getItem "darkMode" w with
        | Some s => String.eqb s "true"
        | None => false
        end in
      let w := classList_toggle_dark isDarkMode w in
      match loaded with
      | Typed st => (w, Typed (setDarkMode isDarkMode st))
      | Untyped => (w, Untyped)
      end
  end.

(** What can happen to a dashboard. [Elsewhere] is any change made to the
    browser by other pages, other tabs or the passing of time. [LoadCart]
    and [AddToCart] are the bare callbacks, called at any time and with any
    value: whatever the button of the dialog does, [AddToCart] and
    [Elsewhere] do as well. *)
Inductive event : Type :=
| Mount (user : option Auth.User)
| LoadCart
| ProductsUpdated
| FetchSettled (r : FetchResult)
| SearchInput (s : string)
| SearchSubmit
| CardClick (p : value)
| DialogDismiss
| DialogButton
| AddToCart (p : value)
| ToggleDarkMode
| Elsewhere (w' : Browser).

Definition run (e : event) (ws : Browser * State) : Browser * outcome :=
  match e with
  | Mount user => mount user ws
  | LoadCart => loadCart ws
  | ProductsUpdated => typed (fetchProducts_begin ws)
  | FetchSettled r => typed (fetchProducts_settle r ws)
  | SearchInput s => typed (ws.1, setSearchTerm s ws.2)
  | SearchSubmit => typed (handleSearch ws)
  | CardClick p => typed (ws.1, openProductDialog p ws.2)
  | DialogDismiss => typed (ws.1, setSelectedProduct None ws.2)
  | DialogButton => dialogButton ws
  | AddToCart p => typed (addToCart p ws)
  | ToggleDarkMode => typed (toggleDarkMode ws)
  | Elsewhere w' => typed (w', ws.2)
  end.

(** The states of a dashboard that started in [initial] and whose cells
    still hold values of their declared types. *)
Inductive reachable : Browser * State -> Prop :=
| reachable_initial w : reachable (w, initial)
| reachable_step e ws w' st' :
    reachable ws -> run e ws = (w', Typed st') -> reachable (w', st').

End Runtime.

(** [addToCart] called once per product of [ps], in order. *)
Definition addToCart_each (ps : list value) (ws : Browser * State) : Browser * State :=
  fold_left (fun ws product => addToCart product ws) ps ws.

(** The lower-cased name has the lower-cased term as a segment. *)
Definition contains_lowered (toLowerCase : string -> string) (name term : string) : Prop :=
  ∃ pre post, toLowerCase name = pre +:+ toLowerCase term +:+ post.

(** The catalog request did not deliver parseable JSON: it was rejected, or
    the body of the response is not JSON text. *)
Definition fetch_failed (JSON_parse : string -> option value) (r : FetchResult) : Prop :=
  match r with
  | Rejected => True
  | Body text => JSON_parse text = None
  end.

(** The display counter equals the length of the cart. *)
Definition counter_matches (st : State) : Prop :=
  cartCount st = Z.of_nat (length (cart st)).

(** [Boolean.prototype.toString], as [toggleDarkMode] uses it for the text
    it stores. *)
Definition Boolean_toString (b : bool) : string :=
  if b then "true" else "false".

(** The events of a mounted dashboard that come from the page itself: the
    gestures of the user, the [productsUpdated] signal and the settling of a
    request. [Mount], and the bare calls [LoadCart] and [AddToCart], are
    not among them, nor is what happens [Elsewhere]. *)
Definition on_page (e : event) : bool :=
  match e with
  | ProductsUpdated | FetchSettled _ | SearchInput _ | SearchSubmit
  | CardClick _ | DialogDismiss | DialogButton | ToggleDarkMode => true
  | Mount _ | LoadCart | AddToCart _ | Elsewhere _ => false
  end.

(** The events of [es] one after the other, as long as the state stays
    typed. *)
Fixpoint run_all (JSON_parse : string -> option value) (es : list event)
    (ws : Browser * State) : Browser * outcome :=
  match es with
  | [] => typed ws
  | e :: es' =>
      match run JSON_parse e ws with
      | (w, Typed st) => run_all JSON_parse es' (w, st)
      | (w, Untyped) => (w, Untyped)
      end
  end.

(** The text under the key cart is the JSON text of the cart in memory. *)
Definition cart_persisted (ws : Browser * State) : Prop :=
  getItem "cart" ws.1 = Some (JSON_stringify (cart_to_value (cart ws.2))).

(** No two entries of the cart share an identifier. *)
Definition distinct_ids (st : State) : Prop :=
  NoDup (List.map id_of (cart st)).

End Dashboard.

(** ** Sample data *)

Module Sample.
Import JS Web.

Definition browser : Browser :=
  mkBrowser ∅ [] [] [] 1700000000000 false.

Definition cement : value :=
  Dashboard.Product_to_value
    (Dashboard.mkProduct (Int 1) "Portland Cement" (Int 10) "/cement.png" "50 kg bag"
                         Dashboard.material).

Definition mixer : value :=
  Dashboard.Product_to_value
    (Dashboard.mkProduct (Int 2) "Concrete Mixer" (Int 900) "/mixer.png" "Drum mixer"
                         Dashboard.machine).

Definition mason : value :=
  Dashboard.Product_to_value
    (Dashboard.mkProduct (Int 3) "Mason" (Int 40) "/mason.png" "Brick work"
                         Dashboard.worker).

(** A product as another endpoint might send it: the properties in another
    order, a price that is not an integer and a property the declared type
    does not name. *)
Definition gravel : value :=
  Obj [("category", Str "material"); ("name", Str "Gravel"); ("unit", Str "ton");
       ("price", Num (Frac "12.5")); ("id", Num (Int 4)); ("image", Str "");
       ("description", Str "Washed gravel")].


(** A dashboard that holds one product in its cart. *)
Definition one_in_cart : Dashboard.State :=
  (Dashboard.addToCart cement (browser, Dashboard.initial)).2.

(** The text [addToCart] stores for a cart holding [cement] and [mixer]. *)
Definition stored_cart : string :=
  JSON_stringify (Dashboard.cart_to_value [cement; mixer]).

(** The text [addToCart] stores for a cart holding [gravel]. *)
Definition stored_gravel : string :=
  JSON_stringify (Dashboard.cart_to_value [gravel]).

(** [JSON.parse] on the texts used in the examples, and only on them: the
    empty text and [{oops] are not JSON; [null], [[]], [[1,2]] and [[null]]
    are; [stored_cart] and [stored_gravel] read back as the arrays they
    were printed from. Every other text is left unread. *)
Definition parse (text : string) : option value :=
  if String.eqb text "null" then Some Null
  else if String.eqb text "[]" then Some (Arr [])
  else if String.eqb text "[1,2]" then Some (Arr [Num (Int 1); Num (Int 2)])
  else if String.eqb text "[null]" then Some (Arr [Null])
  else if String.eqb text stored_cart
       then Some (Dashboard.cart_to_value [cement; mixer])
  else if String.eqb text stored_gravel
       then Some (Dashboard.cart_to_value [gravel])
  else None.

(** The letters A to Z to lower case, every other byte as it is: what
    [String.prototype.toLowerCase] does to a text of ASCII characters. *)
Definition lower_ascii (c : ascii) : ascii :=
  let n := N_of_ascii c in
  if ((65 <=? n) && (n <=? 90))%N then ascii_of_N (n + 32) else c.

Fixpoint lower_ascii_text (s : string) : string :=
  match s with
  | EmptyString => EmptyString
  | String c s' => String (lower_ascii c) (lower_ascii_text s')
  end.

(** [String.prototype.toLowerCase] on the texts used in the examples, and
    only on them: the texts of ASCII characters, and the two Greek texts
    below, where a capital sigma that ends a word becomes the final small
    sigma and a capital sigma alone the plain one. *)
Definition toLowerCase (s : string) : string :=
  if String.eqb s "ΑΣ" then "ας"
  else if String.eqb s "Σ" then "σ"
  else lower_ascii_text s.

(** The session [login] creates for alice when the clock reads as in
    [browser], and the text it stores. *)
Definition alice : Auth.User :=
  Auth.mkUser "1700000000000" "a@b.com" "alice" Auth.consumer.

Definition stored_user : string :=
  JSON_stringify (Auth.User_to_value alice).

(** [JSON.parse] on the texts used in the session examples, and only on
    them: [stored_user] reads back as the object it was printed from and
    [null] as itself; every other text is left unread. *)
Definition parse_session (text : string) : option value :=
  if String.eqb text "null" then Some Null
  else if String.eqb text stored_user then Some (Auth.User_to_value alice)
  else None.

(** A dashboard showing the catalog [cement; mixer; mason]. *)
Definition stocked : Dashboard.State :=
  Dashboard.setDisplayedProducts
    (Dashboard.mkDisplayed [cement] [mixer] [mason])
    (Dashboard.setAllProducts (Arr [cement; mixer; mason])
       (Dashboard.setIsLoading false Dashboard.initial)).

End Sample.

(** ** Facts about the session store *)

Module AuthFacts.
Import JS Web Auth.

Lemma stringify_Obj_truthy (props : list (string * value)) :
  truthy (JSON_stringify (Obj props)) = true.
Proof. reflexivity. Qed.

Lemma getItem_setItem (k v : string) (w : Browser) :
  getItem k (setItem k v w) = Some v.
Proof. unfold getItem, setItem; simpl. apply lookup_insert_eq. Qed.

Lemma getItem_removeItem (k : string) (w : Browser) :
  getItem k (removeItem k w) = None.
Proof. unfold getItem, removeItem; simpl. apply lookup_delete_eq. Qed.

Lemma getItem_router_push (k path : string) (w : Browser) :
  getItem k (router_push path w) = getItem k w.
Proof. reflexivity. Qed.

(** C6, as it stands, fails: the identifier is the clock reading, so a second
    [login] made before the clock moves (here the profile page re-invoking
    [login] with a new e-mail address) receives the identifier already given
    out by the first. *)
Lemma login_identifier_reused :
  let ws1 := login "a@b.com" "alice" (Sample.browser, initial) in
  let ws2 := login "alice@b.com" "alice" ws1 in
  session_id ws1 = Some "1700000000000" ∧ session_id ws2 = session_id ws1.
Proof. vm_compute. split; reflexivity. Qed.

(** C6, amended: for all inputs and any prior state, [login] builds a [User]
    whose identifier is the decimal rendering of the current clock reading,
    with the given e-mail address and user name and the role consumer; it
    makes this [User] the session whatever the session was, stores its JSON
    text under the key user, leaves every other key alone and navigates to
    the dashboard. Two logins receive the same identifier exactly when their
    clock readings are equal. *)
Theorem login_fabricates_user (e u : string) (w : Browser) (st : State) :
  let ws' := login e u (w, st) in
  (∃ newUser,
      user ws'.2 = Some newUser
      ∧ id newUser = pretty (Date_now w)
      ∧ email newUser = e
      ∧ username newUser = u
      ∧ role newUser = consumer
      ∧ getItem "user" ws'.1 = Some (JSON_stringify (User_to_value newUser)))
  ∧ (∀ k, k ≠ "user" → getItem k ws'.1 = getItem k w)
  ∧ route ws'.1 = (route w ++ ["/consumer"])%list
  ∧ (∀ e2 u2 w2 st2,
        session_id (login e2 u2 (w2, st2)) = session_id ws'
        ↔ Date_now w2 = Date_now w).
Proof.
  cbn zeta. repeat split.
  - eexists. repeat split. unfold login. cbn [fst snd].
    rewrite getItem_router_push. apply getItem_setItem.
  - intros k Hk. unfold login, getItem; cbn.
    apply lookup_insert_ne. congruence.
  - unfold session_id, login; cbn. intros [= H]. by apply (inj pretty) in H.
  - unfold session_id, login; cbn. by intros ->.
Qed.

Lemma login_fabricates_user_witness :
  let w := setItem "cart" "[]" Sample.browser in
  let ws' := login "a@b.com" "alice" (w, initial) in
  getItem "cart" ws'.1 = Some "[]"
  ∧ (session_id (login "c@d.com" "carol" (set_clock 1700000000001 w, initial))
     = session_id ws' ↔ 1700000000001 = 1700000000000).
Proof.
  cbn zeta.
  destruct (login_fabricates_user "a@b.com" "alice"
              (setItem "cart" "[]" Sample.browser) initial)
    as (_ & Hkeys & _ & Hids).
  split.
  - rewrite (Hkeys "cart"); [reflexivity | discriminate].
  - apply (Hids "c@d.com" "carol"
             (set_clock 1700000000001 (setItem "cart" "[]" Sample.browser)) initial).
Defined.

(** C7: for all inputs and any prior state, [isLoggedIn] is true after
    [login]. *)
Theorem login_then_isLoggedIn (e u : string) (ws : Browser * State) :
  isLoggedIn (login e u ws).1 = true.
Proof.
  destruct ws as [w st]. unfold isLoggedIn, login. cbn [fst].
  rewrite getItem_router_push, getItem_setItem. apply stringify_Obj_truthy.
Qed.

(** C8: for any prior state, [isLoggedIn] is false after [logout]; the
    session held in memory is cleared and no record is left under the key
    user. *)
Theorem logout_then_isLoggedIn (ws : Browser * State) :
  isLoggedIn (logout ws).1 = false
  ∧ user (logout ws).2 = None
  ∧ getItem "user" (logout ws).1 = None.
Proof.
  destruct ws as [w st]. unfold isLoggedIn, logout. cbn [fst snd].
  rewrite getItem_router_push, getItem_removeItem. repeat split.
Qed.

(** C9: [logout] leaves the value stored under the key cart as it was,
    whatever the storage holds. *)
Theorem logout_keeps_cart (ws : Browser * State) :
  getItem "cart" (logout ws).1 = getItem "cart" ws.1.
Proof.
  destruct ws as [w st]. unfold logout, getItem; cbn.
  apply lookup_delete_ne. discriminate.
Qed.

End AuthFacts.

(** ** Further facts about the session store and the profile editor *)

Module SessionFacts.
Import JS Web Auth.

Local Open Scope list_scope.

Lemma as_User_to_value (u : User) : as_User (User_to_value u) = Some u.
Proof. destruct u as [i e n []]. reflexivity. Qed.

Lemma stored_user_truthy (u : User) :
  truthy (JSON_stringify (User_to_value u)) = true.
Proof. reflexivity. Qed.

(** X1: a session survives a reload. When [JSON.parse] reads the text
    written by [login] back as the object it was printed from, the effect of
    a freshly mounted [AuthProvider] restores exactly the session that
    [login] created. *)
Theorem restoreSession_after_login
    (JSON_parse : string → option value) (e u : string)
    (w : Browser) (st st0 : State) :
  let newUser := mkUser (pretty (Date_now w)) e u consumer in
  JSON_parse (JSON_stringify (User_to_value newUser)) = Some (User_to_value newUser) →
  restoreSession JSON_parse ((login e u (w, st)).1, st0) = Restored (login e u (w, st)).2
  ∧ user (login e u (w, st)).2 = Some newUser.
Proof.
  cbn zeta. intros Hparse. split; [|reflexivity].
  unfold restoreSession, login. cbn [fst snd].
  rewrite AuthFacts.getItem_router_push, AuthFacts.getItem_setItem.
  rewrite stored_user_truthy, Hparse.
  change (match User_to_value ?u with Null => _ | _ => ?k end) with k.
  by rewrite as_User_to_value.
Qed.

Lemma restoreSession_after_login_witness :
  Sample.parse_session Sample.stored_user = Some (User_to_value Sample.alice)
  ∧ restoreSession Sample.parse_session
      ((login "a@b.com" "alice" (Sample.browser, initial)).1, initial)
    = Restored (mkState (Some Sample.alice)).
Proof.
  split; [reflexivity|].
  apply (restoreSession_after_login Sample.parse_session "a@b.com" "alice"
           Sample.browser initial initial).
  reflexivity.
Defined.

(** X2: after [logout] a reload finds no session: whatever [JSON.parse]
    does, the effect of a freshly mounted [AuthProvider] leaves the user
    cell as it was. *)
Theorem restoreSession_after_logout
    (JSON_parse : string → option value) (ws : Browser * State) (st0 : State) :
  restoreSession JSON_parse ((logout ws).1, st0) = Restored st0.
Proof.
  destruct ws as [w st]. unfold restoreSession, logout. cbn [fst].
  by rewrite AuthFacts.getItem_router_push, AuthFacts.getItem_removeItem.
Qed.

(** X3: the effect of [AuthProvider] has no recovery. With a text stored
    under the key user: an empty text is skipped; a non-empty text that is
    not JSON makes the effect throw; the text [null] clears the session. *)
Theorem restoreSession_edges
    (JSON_parse : string → option value) (w : Browser) (st : State)
    (storedUser : string) :
  getItem "user" w = Some storedUser →
  (storedUser = "" → restoreSession JSON_parse (w, st) = Restored st)
  ∧ (storedUser ≠ "" → JSON_parse storedUser = None →
       restoreSession JSON_parse (w, st) = Threw)
  ∧ (storedUser ≠ "" → JSON_parse storedUser = Some Null →
       restoreSession JSON_parse (w, st) = Restored (mkState None)).
Proof.
  intros Hget. unfold restoreSession. rewrite Hget. repeat split.
  - by intros ->.
  - intros Hne Hparse. destruct storedUser; [done|]. cbn. by rewrite Hparse.
  - intros Hne Hparse. destruct storedUser; [done|]. cbn. by rewrite Hparse.
Qed.

Lemma restoreSession_edges_witness :
  restoreSession Sample.parse_session
    (setItem "user" "{oops" Sample.browser, initial) = Threw
  ∧ restoreSession Sample.parse_session
      (setItem "user" "null" Sample.browser, mkState (Some Sample.alice))
    = Restored (mkState None).
Proof.
  split.
  - apply (restoreSession_edges Sample.parse_session
             (setItem "user" "{oops" Sample.browser) initial "{oops");
      [reflexivity | discriminate | reflexivity].
  - apply (restoreSession_edges Sample.parse_session
             (setItem "user" "null" Sample.browser) (mkState (Some Sample.alice)) "null");
      [reflexivity | discriminate | reflexivity].
Defined.

(** X4: [login] followed by [logout] leaves the storage as it was, less
    the key user; the session is empty and the router was sent to the
    dashboard and then to the entry page. *)
Theorem logout_after_login (e u : string) (ws : Browser * State) :
  let ws' := logout (login e u ws) in
  localStorage ws'.1 = delete "user" (localStorage ws.1)
  ∧ user ws'.2 = None
  ∧ route ws'.1 = route ws.1 ++ ["/consumer"; "/"].
Proof.
  destruct ws as [w st]. cbn zeta. unfold logout, login. cbn.
  repeat split.
  - apply delete_insert_eq.
  - by rewrite <- app_assoc.
Qed.

End SessionFacts.

Module ProfileFacts.
Import JS Web.

Local Open Scope list_scope.

(** X5: submitting the profile form without a session changes nothing.
    With a session it replaces the whole session through [login]: the
    identifier becomes the current clock reading whatever it was, e-mail
    address and user name are taken from the form, the record is stored, the
    router is sent to the dashboard and one line is logged, which carries
    the user name, the e-mail address and the telephone number of the form.
    The console is the only place the telephone number reaches: the session
    and the storage are the same for every telephone number. *)
Theorem handleProfileUpdate_replaces_session
    (form : Profile.State) (w : Browser) (session : Auth.State) :
  match Auth.user session with
  | None => Profile.handleProfileUpdate form (w, session) = (w, session)
  | Some old =>
      let ws' := Profile.handleProfileUpdate form (w, session) in
      let updated :=
        Auth.mkUser (pretty (Date_now w)) (Profile.email form) (Profile.username form)
                    Auth.consumer in
      Auth.user ws'.2 = Some updated
      ∧ getItem "user" ws'.1 = Some (JSON_stringify (Auth.User_to_value updated))
      ∧ route ws'.1 = route w ++ ["/consumer"]
      ∧ console ws'.1
        = console w ++ ["Profile updated:" +:+ " " +:+ JSON_stringify (Profile.logged form)]
  end
  ∧ ∀ phone',
      let form' := Profile.mkState (Profile.username form) (Profile.email form) phone' in
      (Profile.handleProfileUpdate form' (w, session)).2
      = (Profile.handleProfileUpdate form (w, session)).2
      ∧ localStorage (Profile.handleProfileUpdate form' (w, session)).1
        = localStorage (Profile.handleProfileUpdate form (w, session)).1
      ∧ route (Profile.handleProfileUpdate form' (w, session)).1
        = route (Profile.handleProfileUpdate form (w, session)).1.
Proof.
  split.
  - unfold Profile.handleProfileUpdate.
    destruct (Auth.user session) as [old|]; [|reflexivity].
    cbn. repeat split. apply lookup_insert_eq.
  - intros phone'. unfold Profile.handleProfileUpdate.
    destruct (Auth.user session) as [old|]; by cbn.
Qed.

End ProfileFacts.

(** ** Facts about strings and arrays *)

Module StringFacts.
Import JS.

#[local] Arguments String.append !_ _ / : simpl nomatch.

Lemma startsWith_spec (s t : string) :
  startsWith s t = true ↔ ∃ post, s = t +:+ post.
Proof.
  revert s. induction t as [|d t IH]; intros [|c s]; simpl.
  - split; [intros _; by exists "" | done].
  - split; [intros _; by exists (String c s) | done].
  - split; [done | intros [post Hp]; discriminate].
  - destruct (Ascii.eqb_spec c d) as [->|Hne].
    + rewrite IH. split; intros [post Hp]; exists post; simpl in *; congruence.
    + split; [done | intros [post Hp]; simpl in Hp; congruence].
Qed.

Lemma includes_spec (s t : string) :
  includes s t = true ↔ ∃ pre post, s = pre +:+ t +:+ post.
Proof.
  induction s as [|c s IH].
  - cbn [includes]. rewrite orb_false_r, startsWith_spec. split.
    + intros [post Hp]. by exists "", post.
    + intros (pre & post & Hp). destruct pre; [by exists post | discriminate].
  - cbn [includes]. rewrite orb_true_iff, startsWith_spec, IH. split.
    + intros [[post Hp] | (pre & post & Hp)].
      * by exists "", post.
      * exists (String c pre), post. simpl. by rewrite Hp.
    + intros (pre & post & Hp). destruct pre as [|c' pre].
      * left. by exists post.
      * right. exists pre, post. simpl in Hp. congruence.
Qed.


Lemma append_assoc (a b c : string) : (a +:+ b) +:+ c = a +:+ (b +:+ c).
Proof. induction a as [|x a IH]; simpl; [done | by rewrite IH]. Qed.

Lemma includes_trans (s t u : string) :
  includes s t = true → includes t u = true → includes s u = true.
Proof.
  rewrite !includes_spec.
  intros (a & b & ->) (c & d & ->).
  exists (a +:+ c), (d +:+ b). by rewrite !append_assoc.
Qed.

End StringFacts.

Module ArrayFacts.
Import JS Dashboard.

Local Open Scope list_scope.

Lemma number_eqb_eq (a b : number) : number_eqb a b = true ↔ a = b.
Proof.
  destruct a as [x|s], b as [y|t]; cbn.
  - rewrite Z.eqb_eq. split; congruence.
  - split; discriminate.
  - split; discriminate.
  - rewrite String.eqb_eq. split; congruence.
Qed.

Lemma has_id_true (productId : number) (item : value) :
  has_id productId item = Returned true ↔ id_of item = Some productId.
Proof.
  unfold has_id, id_of. destruct (get "id" item) as [[[| |n| | |]|]|].
  all: try (split; discriminate).
  split.
  - intros [= H]. apply number_eqb_eq in H. by subst.
  - intros [= ->]. f_equal. by apply number_eqb_eq.
Qed.

Lemma has_id_returns (productId : number) (item : value) :
  not_Null item → has_id productId item ≠ Threw.
Proof.
  destruct item; cbn; try done.
  unfold has_id. cbn. intros _. by repeat case_match.
Qed.

(** [some] answers true exactly when the callback answers true on an entry
    that it reaches, that is, one with no throw before it. *)
Lemma Array_some_total (f : value → completion bool) (items : list value) :
  Forall (fun item => f item ≠ Threw) items →
  (Array_some f items = Returned true ↔ ∃ item, In item items ∧ f item = Returned true)
  ∧ (Array_some f items = Returned false ↔ ∀ item, In item items → f item = Returned false).
Proof.
  induction 1 as [|item items Hitem _ IH]; cbn [Array_some].
  - split; split; try done. intros (item & [] & _).
  - destruct IH as [IHt IHf].
    destruct (f item) as [[|]|] eqn:Hf; [| |done].
    + split; split; try done.
      * intros _. exists item. split; [by left | done].
      * intros Hall. specialize (Hall item (or_introl eq_refl)). congruence.
    + rewrite IHt, IHf. split; split.
      * intros (x & Hin & Hx). exists x. split; [by right | done].
      * intros (x & [<-|Hin] & Hx); [congruence | by exists x].
      * intros Hall x [<-|Hin]; auto.
      * intros Hall x Hin. apply Hall. by right.
Qed.

Lemma Array_some_snoc (f : value → completion bool) (items : list value) (x : value) :
  Array_some f (items ++ [x])
  = match Array_some f items with
    | Returned false => Array_some f [x]
    | answered => answered
    end.
Proof.
  induction items as [|item items IH]; [done|].
  cbn [app Array_some]. destruct (f item) as [[|]|]; [done | exact IH | done].
Qed.

(** [filter] keeps what the callback keeps, when the callback answers on
    every entry. *)
Lemma Array_filter_total (f : value → completion bool) (g : value → bool)
    (items : list value) :
  Forall (fun item => f item = Returned (g item)) items →
  Array_filter f items = Returned (List.filter g items).
Proof.
  induction 1 as [|item items Hitem _ IH]; [done|].
  cbn [Array_filter List.filter]. rewrite Hitem, IH. by destruct (g item).
Qed.

(** [filter] throws when the callback throws on some entry. *)
Lemma Array_filter_Threw (f : value → completion bool) (items : list value) :
  Exists (fun item => f item = Threw) items → Array_filter f items = Threw.
Proof.
  induction items as [|item items IH]; intros Hex; [by inversion Hex|].
  cbn [Array_filter]. destruct (f item) as [keep|] eqn:Hf; [|done].
  inversion Hex as [? ? Hhere | ? ? Hthere]; subst; [congruence|].
  by rewrite (IH Hthere).
Qed.

Lemma in_category_Null (c : Category) (p : value) :
  in_category c p = Threw ↔ p = Null.
Proof.
  destruct p; cbn; try (split; discriminate); [done|].
  unfold in_category. cbn. split; [|discriminate]. by repeat case_match.
Qed.

Lemma in_category_of (c : Category) (p : value) :
  in_category c p = Returned true ↔ category_of p = Some c.
Proof.
  unfold in_category, category_of.
  destruct (get "category" p) as [[[| | |s| |]|]|]; try (split; discriminate).
  split.
  - intros [= H]. apply String.eqb_eq in H. subst s. by destruct c.
  - intros H. f_equal.
    destruct (String.eqb s "material") eqn:E1.
    { apply String.eqb_eq in E1. injection H as <-. by subst s. }
    destruct (String.eqb s "machine") eqn:E2.
    { apply String.eqb_eq in E2. injection H as <-. by subst s. }
    destruct (String.eqb s "worker") eqn:E3; [|discriminate].
    apply String.eqb_eq in E3. injection H as <-. by subst s.
Qed.

Lemma in_category_returns (c : Category) (p : value) :
  not_Null p →
  in_category c p
  = Returned (match in_category c p with Returned keep => keep | Threw => false end).
Proof.
  intros Hp. destruct (in_category c p) as [keep|] eqn:Hc; [done|].
  apply in_category_Null in Hc. by subst.
Qed.

End ArrayFacts.

(** ** Facts about the cart store and the dashboard view *)

Module DashboardFacts.
Import JS Web Dashboard.

Local Open Scope list_scope.

Lemma addToCart_cart (p : value) (w : Browser) (st : State) :
  cart (addToCart p (w, st)).2 = cart st ++ [p].
Proof. reflexivity. Qed.

Lemma addToCart_cartCount (p : value) (w : Browser) (st : State) :
  cartCount (addToCart p (w, st)).2 = cartCount st + 1.
Proof. reflexivity. Qed.

Lemma addToCart_stored (p : value) (w : Browser) (st : State) :
  getItem "cart" (addToCart p (w, st)).1
  = Some (JSON_stringify (cart_to_value (cart st ++ [p]))).
Proof. unfold addToCart, getItem; cbn. apply lookup_insert_eq. Qed.

Lemma addToCart_each_snoc (ps : list value) (p : value) (ws : Browser * State) :
  addToCart_each (ps ++ [p]) ws = addToCart p (addToCart_each ps ws).
Proof. unfold addToCart_each. by rewrite fold_left_app. Qed.

Lemma addToCart_each_cart (ps : list value) (ws : Browser * State) :
  cart (addToCart_each ps ws).2 = cart ws.2 ++ ps
  ∧ cartCount (addToCart_each ps ws).2 = cartCount ws.2 + Z.of_nat (length ps).
Proof.
  induction ps as [|p ps IH] using rev_ind.
  - simpl. rewrite app_nil_r. split; [done | lia].
  - rewrite addToCart_each_snoc. destruct (addToCart_each ps ws) as [w st].
    destruct IH as [IHc IHn]. cbn [snd] in IHc, IHn.
    rewrite addToCart_cart, addToCart_cartCount, IHc, IHn, length_app.
    cbn [length]. split; [by rewrite app_assoc | lia].
Qed.

(** C1: for every product and every cart state, [addToCart] appends the
    product to the cart held in memory, stores the JSON text of the whole
    updated sequence under the key cart and increments the display counter
    by one; adding the products of any sequence [ps], duplicates or not, to
    a cart of length K gives the cart followed by [ps], of length
    K + length ps. *)
Theorem addToCart_appends (p : value) (ps : list value) (w : Browser) (st : State) :
  let ws' := addToCart p (w, st) in
  let wsN := addToCart_each ps (w, st) in
  cart ws'.2 = cart st ++ [p]
  ∧ length (cart ws'.2) = S (length (cart st))
  ∧ getItem "cart" ws'.1 = Some (JSON_stringify (cart_to_value (cart st ++ [p])))
  ∧ cartCount ws'.2 = cartCount st + 1
  ∧ cart wsN.2 = cart st ++ ps
  ∧ length (cart wsN.2) = (length (cart st) + length ps)%nat
  ∧ cartCount wsN.2 = cartCount st + Z.of_nat (length ps)
  ∧ getItem "cart" wsN.1 =
      match ps with
      | [] => getItem "cart" w
      | _ :: _ => Some (JSON_stringify (cart_to_value (cart st ++ ps)))
      end.
Proof.
  cbn zeta.
  destruct (addToCart_each_cart ps (w, st)) as [Hc Hn]. cbn [snd] in Hc, Hn.
  repeat split.
  - rewrite addToCart_cart, length_app. cbn [length]. lia.
  - apply addToCart_stored.
  - exact Hc.
  - by rewrite Hc, length_app.
  - exact Hn.
  - destruct ps as [|q qs _] using rev_ind; [done|].
    rewrite addToCart_each_snoc.
    destruct (addToCart_each_cart qs (w, st)) as [Hq _]. cbn [snd] in Hq.
    destruct (addToCart_each qs (w, st)) as [w1 st1]. cbn [snd] in Hq.
    rewrite addToCart_stored, Hq, <- app_assoc.
    by destruct qs.
Qed.

Lemma id_of_Product (p : Product) : id_of (Product_to_value p) = Some (id p).
Proof. reflexivity. Qed.

Lemma Products_not_Null (ps : list Product) :
  Forall not_Null (List.map Product_to_value ps).
Proof. induction ps; constructor; [exact I | assumption]. Qed.

(** C2: for every cart and every product identifier, [isInCart] answers true
    exactly when some entry of the cart has that identifier, and false
    exactly when none has. This holds for every cart without a [null] entry
    (reading [id] from [null] throws), whatever else its entries are; in
    particular for every cart of products of the declared type. *)
Theorem isInCart_iff (st : State) (productId : number) :
  (Forall not_Null (cart st) →
   (isInCart st productId = Returned true
    ↔ ∃ item, In item (cart st) ∧ id_of item = Some productId)
   ∧ (isInCart st productId = Returned false
      ↔ ¬ ∃ item, In item (cart st) ∧ id_of item = Some productId))
  ∧ (∀ ps : list Product,
       cart st = List.map Product_to_value ps →
       (isInCart st productId = Returned true
        ↔ ∃ p, In p ps ∧ id p = productId)).
Proof.
  assert (Forall not_Null (cart st) →
          (isInCart st productId = Returned true
           ↔ ∃ item, In item (cart st) ∧ id_of item = Some productId)
          ∧ (isInCart st productId = Returned false
             ↔ ¬ ∃ item, In item (cart st) ∧ id_of item = Some productId)) as Hraw.
  { intros Hobjects. unfold isInCart.
    destruct (ArrayFacts.Array_some_total (has_id productId) (cart st)) as [Ht Hf].
    { eapply Forall_impl; [exact Hobjects|].
      intros item. apply ArrayFacts.has_id_returns. }
    split.
    - rewrite Ht. by setoid_rewrite ArrayFacts.has_id_true.
    - rewrite Hf. split.
      + intros Hall (item & Hin & Hid). apply ArrayFacts.has_id_true in Hid.
        specialize (Hall item Hin). congruence.
      + intros Hnone item Hin.
        destruct (has_id productId item) as [[|]|] eqn:Hitem; [|done|].
        * exfalso. apply Hnone. exists item. split; [done|].
          by apply ArrayFacts.has_id_true.
        * exfalso. rewrite Forall_forall in Hobjects.
          apply list_elem_of_In in Hin.
          by apply (ArrayFacts.has_id_returns productId item (Hobjects item Hin)). }
  split; [exact Hraw|].
  intros ps Hcart.
  destruct Hraw as [Htrue _]; [rewrite Hcart; apply Products_not_Null|].
  rewrite Htrue, Hcart. split.
  - intros (item & Hin & Hid). apply in_map_iff in Hin as (p & <- & Hp).
    exists p. split; [done|]. rewrite id_of_Product in Hid. congruence.
  - intros (p & Hp & <-). exists (Product_to_value p).
    split; [by apply in_map | apply id_of_Product].
Qed.

Lemma isInCart_iff_witness :
  let st := (addToCart Sample.gravel (Sample.browser, Sample.one_in_cart)).2 in
  Forall not_Null (cart st)
  ∧ isInCart st (Int 4) = Returned true
  ∧ isInCart st (Int 2) = Returned false.
Proof.
  cbn zeta.
  assert (Forall not_Null
            (cart (addToCart Sample.gravel (Sample.browser, Sample.one_in_cart)).2))
    as Hobjects by (repeat constructor).
  split; [exact Hobjects|].
  destruct (isInCart_iff
              (addToCart Sample.gravel (Sample.browser, Sample.one_in_cart)).2
              (Int 4)) as [Hraw4 _].
  destruct (isInCart_iff
              (addToCart Sample.gravel (Sample.browser, Sample.one_in_cart)).2
              (Int 2)) as [Hraw2 _].
  destruct (Hraw4 Hobjects) as [Hyes _]. destruct (Hraw2 Hobjects) as [_ Hno].
  split.
  - apply Hyes. exists Sample.gravel. split; [right; left; reflexivity | reflexivity].
  - apply Hno. intros (item & [<-|[<-|[]]] & Hid); discriminate.
Defined.

(** *** The search *)

Lemma name_matches_named
    (toLowerCase : string → string) (term : string) (item : value) (s : string) :
  name_of item = Some s →
  name_matches toLowerCase term item
  = Returned (includes (toLowerCase s) (toLowerCase term)).
Proof.
  unfold name_of, name_matches.
  destruct (get "name" item) as [[[| | |s'| |]|]|]; try discriminate.
  by intros [= ->].
Qed.


(** What [filteredProducts] keeps of an entry that has a name. *)
Lemma filteredProducts_named
    (toLowerCase : string → string) (st : State) (c : Category) :
  Forall (fun item => is_Some (name_of item)) (bucket (displayedProducts st) c) →
  filteredProducts toLowerCase st c
  = Returned
      (List.filter
         (fun item => match name_of item with
                      | Some s => includes (toLowerCase s) (toLowerCase (searchTerm st))
                      | None => false
                      end)
         (bucket (displayedProducts st) c)).
Proof.
  intros Hnamed. unfold filteredProducts. apply ArrayFacts.Array_filter_total.
  eapply Forall_impl; [exact Hnamed|]. intros item [s Hs].
  by rewrite (name_matches_named _ _ _ _ Hs), Hs.
Qed.




(** *** Reading the persisted cart and the catalog *)

Lemma truthy_nonempty (s : string) : s ≠ "" → truthy s = true.
Proof. by destruct s. Qed.

(** C4: when the catalog request is rejected or its body is not JSON,
    [fetchProducts] logs the error and leaves [allProducts] and the three
    buckets as they were; exactly one request was issued. *)
Theorem fetchProducts_failure
    (JSON_parse : string → option value) (r : FetchResult)
    (w : Browser) (st : State) :
  fetch_failed JSON_parse r →
  ∃ w' st',
    fetchProducts JSON_parse r (w, st) = (w', st')
    ∧ allProducts st' = allProducts st
    ∧ displayedProducts st' = displayedProducts st
    ∧ console w' = console w ++ ["Error fetching products:"]
    ∧ requests w' = requests w ++ ["/api/products"]
    ∧ isLoading st' = false.
Proof.
  intros Hfail. unfold fetchProducts, fetchProducts_begin, fetchProducts_settle.
  destruct r as [|text]; cbn in Hfail |- *.
  - eexists _, _. repeat split.
  - rewrite Hfail. eexists _, _. repeat split.
Qed.

Lemma fetchProducts_failure_witness :
  fetch_failed Sample.parse (Body "{oops")
  ∧ ∃ w' st',
      fetchProducts Sample.parse (Body "{oops") (Sample.browser, initial) = (w', st')
      ∧ allProducts st' = allProducts initial
      ∧ displayedProducts st' = displayedProducts initial
      ∧ console w' = console Sample.browser ++ ["Error fetching products:"]
      ∧ requests w' = requests Sample.browser ++ ["/api/products"]
      ∧ isLoading st' = false.
Proof.
  split; [reflexivity|].
  apply (fetchProducts_failure Sample.parse (Body "{oops") Sample.browser initial).
  reflexivity.
Defined.

(** C5: when the text stored under the key cart fails to parse, [loadCart]
    leaves the cart held in memory empty and the display counter at zero: a
    text that is not empty is parsed and the failure resets both, and the
    empty text, which the guard on [storedCart] skips, meets them empty and
    zero in the state the page calls [loadCart] in. When the text parses to
    an array, whatever the shape of its entries, [loadCart] makes that array
    the cart and its length the counter. The empty text is not JSON. *)
Theorem loadCart_recovers
    (JSON_parse : string → option value) (w : Browser) (st : State)
    (storedCart : string) :
  getItem "cart" w = Some storedCart →
  JSON_parse "" = None →
  (JSON_parse storedCart = None →
   storedCart ≠ "" ∨ (cart st = [] ∧ cartCount st = 0) →
   ∃ w' st', loadCart JSON_parse (w, st) = (w', Typed st')
             ∧ cart st' = [] ∧ cartCount st' = 0)
  ∧ (∀ persisted,
       JSON_parse storedCart = Some (Arr persisted) →
       ∃ st', loadCart JSON_parse (w, st) = (w, Typed st')
              ∧ cart st' = persisted
              ∧ cartCount st' = Z.of_nat (length persisted)).
Proof.
  intros Hstored Hempty. unfold loadCart. rewrite Hstored. split.
  - intros Hparse [Hne | [Hcart Hcount]].
    + rewrite (truthy_nonempty _ Hne), Hparse. eexists _, _. repeat split.
    + destruct storedCart as [|c s]; cbn [truthy].
      * by exists w, st.
      * rewrite Hparse. eexists _, _. repeat split.
  - intros persisted Hparse.
    assert (storedCart ≠ "") as Hne by (intros ->; congruence).
    rewrite (truthy_nonempty _ Hne), Hparse. eexists. repeat split.
Qed.

Lemma loadCart_recovers_witness :
  (∃ w' st', loadCart Sample.parse (setItem "cart" "" Sample.browser, initial)
             = (w', Typed st')
             ∧ cart st' = [] ∧ cartCount st' = 0)
  ∧ (∃ w' st', loadCart Sample.parse
                 (setItem "cart" "{oops" Sample.browser, Sample.one_in_cart)
               = (w', Typed st')
               ∧ cart st' = [] ∧ cartCount st' = 0)
  ∧ (∃ st', loadCart Sample.parse
              (setItem "cart" Sample.stored_gravel Sample.browser, initial)
            = (setItem "cart" Sample.stored_gravel Sample.browser, Typed st')
            ∧ cart st' = [Sample.gravel] ∧ cartCount st' = 1).
Proof.
  split; [|split].
  - destruct (loadCart_recovers Sample.parse (setItem "cart" "" Sample.browser)
                initial "" eq_refl eq_refl) as [Hbad _].
    apply Hbad; [reflexivity | right; split; reflexivity].
  - destruct (loadCart_recovers Sample.parse (setItem "cart" "{oops" Sample.browser)
                Sample.one_in_cart "{oops" eq_refl eq_refl) as [Hbad _].
    apply Hbad; [reflexivity | left; discriminate].
  - destruct (loadCart_recovers Sample.parse
                (setItem "cart" Sample.stored_gravel Sample.browser)
                initial Sample.stored_gravel eq_refl eq_refl) as [_ Hgood].
    apply (Hgood [Sample.gravel]). reflexivity.
Defined.

(** *** The display counter *)

Lemma addToCart_counter (p : value) (ws : Browser * State) :
  counter_matches ws.2 → counter_matches (addToCart p ws).2.
Proof.
  destruct ws as [w st]. unfold counter_matches. cbn [snd].
  rewrite addToCart_cart, addToCart_cartCount, length_app. cbn [length]. lia.
Qed.

(** [loadCart] keeps the counter in step with the cart; it leaves the typed
    states only on a stored text that parses to something other than an
    array or [null]. *)
Lemma loadCart_counter
    (JSON_parse : string → option value) (w : Browser) (st : State) :
  counter_matches st →
  match (loadCart JSON_parse (w, st)).2 with
  | Typed st' => counter_matches st'
  | Untyped =>
      ∃ storedCart v,
        getItem "cart" w = Some storedCart
        ∧ JSON_parse storedCart = Some v
        ∧ v ≠ Null
        ∧ ∀ items, v ≠ Arr items
  end.
Proof.
  intros Hinv. unfold loadCart.
  destruct (getItem "cart" w) as [storedCart|] eqn:Hget; [|exact Hinv].
  destruct (truthy storedCart); [|exact Hinv].
  destruct (JSON_parse storedCart) as [v|] eqn:Hparse; [|reflexivity].
  destruct v as [|b|n|s|items|props];
    try reflexivity;
    cbn [snd]; exists storedCart; eexists; repeat split; eauto; discriminate.
Qed.

Lemma loadCart_Typed_counter
    (JSON_parse : string → option value) (ws : Browser * State)
    (w' : Browser) (st' : State) :
  counter_matches ws.2 → loadCart JSON_parse ws = (w', Typed st') →
  counter_matches st'.
Proof.
  destruct ws as [w st]. intros Hinv Hrun.
  pose proof (loadCart_counter JSON_parse w st Hinv) as H.
  by rewrite Hrun in H.
Qed.

Lemma fetchProducts_settle_cart
    (JSON_parse : string → option value) (r : FetchResult) (ws : Browser * State) :
  cart (fetchProducts_settle JSON_parse r ws).2 = cart ws.2
  ∧ cartCount (fetchProducts_settle JSON_parse r ws).2 = cartCount ws.2.
Proof.
  destruct ws as [w st]. unfold fetchProducts_settle, fetchProducts_catch.
  repeat case_match; by cbn.
Qed.

Lemma mount_counter
    (JSON_parse : string → option value) (user : option Auth.User)
    (ws : Browser * State) (w' : Browser) (st' : State) :
  counter_matches ws.2 → mount JSON_parse user ws = (w', Typed st') →
  counter_matches st'.
Proof.
  destruct ws as [w st]. unfold mount. intros Hinv Hrun.
  destruct user as [u|]; [|by injection Hrun as _ <-].
  destruct (fetchProducts_begin (w, st)) as [w1 st1] eqn:Hbegin.
  assert (counter_matches st1) as Hinv1.
  { unfold fetchProducts_begin in Hbegin. by injection Hbegin as _ <-. }
  destruct (loadCart JSON_parse (w1, st1)) as [w2 [st2|]] eqn:Hload;
    [|discriminate].
  apply (loadCart_Typed_counter _ (w1, st1)) in Hload; [|done].
  by injection Hrun as _ <-.
Qed.

Lemma dialogButton_counter (ws : Browser * State) (w' : Browser) (st' : State) :
  counter_matches ws.2 → dialogButton ws = (w', Typed st') → counter_matches st'.
Proof.
  destruct ws as [w st]. unfold dialogButton. intros Hinv Hrun.
  repeat case_match; try discriminate; try (by injection Hrun as _ <-).
  cbn [typed fst snd] in Hrun. injection Hrun as _ <-.
  by apply (addToCart_counter _ (w, st)).
Qed.

Lemma run_counter
    (JSON_parse : string → option value) (e : event) (ws : Browser * State)
    (w' : Browser) (st' : State) :
  counter_matches ws.2 → run JSON_parse e ws = (w', Typed st') →
  counter_matches st'.
Proof.
  intros Hinv Hrun. destruct e; cbn [run typed] in Hrun;
    try (injection Hrun as _ <-; first
           [ exact Hinv
           | by apply addToCart_counter
           | by destruct ws ]).
  - by eapply mount_counter.
  - by eapply loadCart_Typed_counter.
  - injection Hrun as _ <-. unfold counter_matches.
    destruct (fetchProducts_settle_cart JSON_parse r ws) as [-> ->]. exact Hinv.
  - by eapply dialogButton_counter.
Qed.

Lemma reachable_counter
    (JSON_parse : string → option value) (ws : Browser * State) :
  reachable JSON_parse ws → counter_matches ws.2.
Proof.
  induction 1 as [w | e ws w' st' _ IH Hrun]; [reflexivity|].
  by eapply run_counter.
Qed.

(** C10: the display counter equals the length of the cart held in memory
    in the initial state; [loadCart] keeps it so whenever the stored text is
    missing, fails to parse, is [null] or parses to an array, whatever the
    entries of the array are; [addToCart] keeps it so; hence it holds in
    every state the dashboard reaches. *)
Theorem counter_matches_always :
  counter_matches initial
  ∧ (∀ JSON_parse w st,
        counter_matches st →
        match (loadCart JSON_parse (w, st)).2 with
        | Typed st' => counter_matches st'
        | Untyped =>
            ∃ storedCart v,
              getItem "cart" w = Some storedCart
              ∧ JSON_parse storedCart = Some v
              ∧ v ≠ Null
              ∧ ∀ items, v ≠ Arr items
        end)
  ∧ (∀ p w st, counter_matches st → counter_matches (addToCart p (w, st)).2)
  ∧ (∀ JSON_parse ws, reachable JSON_parse ws → counter_matches ws.2).
Proof.
  split; [reflexivity|]. split; [apply loadCart_counter|].
  split; [|apply reachable_counter].
  intros p w st. apply (addToCart_counter p (w, st)).
Qed.

Lemma counter_matches_always_witness :
  counter_matches Sample.one_in_cart
  ∧ match (loadCart Sample.parse
             (setItem "cart" "[1,2]" Sample.browser, Sample.one_in_cart)).2 with
    | Typed st' => cart st' = [Num (Int 1); Num (Int 2)] ∧ cartCount st' = 2
    | Untyped => False
    end
  ∧ match (loadCart Sample.parse
             (setItem "cart" Sample.stored_gravel Sample.browser, Sample.one_in_cart)).2 with
    | Typed st' => cart st' = [Sample.gravel] ∧ cartCount st' = 1
    | Untyped => False
    end.
Proof.
  destruct counter_matches_always as (Hinit & Hload & Hadd & _).
  pose proof (Hadd Sample.cement Sample.browser initial Hinit) as Hone.
  split; [exact Hone|].
  pose proof (Hload Sample.parse (setItem "cart" "[1,2]" Sample.browser)
                Sample.one_in_cart Hone) as Hnumbers.
  pose proof (Hload Sample.parse (setItem "cart" Sample.stored_gravel Sample.browser)
                Sample.one_in_cart Hone) as Hgravel.
  vm_compute in Hnumbers, Hgravel. vm_compute.
  split; (split; [reflexivity | assumption]).
Defined.

End DashboardFacts.

(** ** Further facts about the dashboard *)

Module CatalogFacts.
Import JS Web Dashboard.

Local Open Scope list_scope.

Lemma by_category_objects (c : Category) (data : list value) :
  Forall not_Null data →
  by_category c data
  = Returned (List.filter
                (fun p => match in_category c p with
                          | Returned keep => keep
                          | Threw => false
                          end) data).
Proof.
  intros Hdata. unfold by_category. apply ArrayFacts.Array_filter_total.
  eapply Forall_impl; [exact Hdata|]. intros p. apply ArrayFacts.in_category_returns.
Qed.

Lemma kept_in_category (c : Category) (p : value) :
  match in_category c p with Returned keep => keep | Threw => false end = true
  ↔ category_of p = Some c.
Proof.
  rewrite <- ArrayFacts.in_category_of.
  destruct (in_category c p) as [[|]|]; split; (done || discriminate).
Qed.

Lemma by_category_lengths (data : list value) :
  Forall (fun item => is_Some (category_of item)) data →
  (length (List.filter (fun p => match in_category material p with
                                 | Returned keep => keep | Threw => false end) data)
   + length (List.filter (fun p => match in_category machine p with
                                   | Returned keep => keep | Threw => false end) data)
   + length (List.filter (fun p => match in_category worker p with
                                   | Returned keep => keep | Threw => false end) data))%nat
  = length data.
Proof.
  induction 1 as [|p data [c Hc] _ IH]; [done|].
  cbn [List.filter].
  destruct (match in_category material p with Returned keep => keep | Threw => false end)
    eqn:H1;
  destruct (match in_category machine p with Returned keep => keep | Threw => false end)
    eqn:H2;
  destruct (match in_category worker p with Returned keep => keep | Threw => false end)
    eqn:H3;
  repeat match goal with
         | H : _ = true |- _ => apply kept_in_category in H
         end;
  try congruence; cbn [length]; try lia.
  exfalso. destruct c.
  - apply kept_in_category in Hc. congruence.
  - apply kept_in_category in Hc. congruence.
  - apply kept_in_category in Hc. congruence.
Qed.

Lemma loadCart_localStorage
    (JSON_parse : string → option value) (ws : Browser * State) :
  localStorage (loadCart JSON_parse ws).1 = localStorage ws.1.
Proof.
  destruct ws as [w st]. unfold loadCart, loadCart_catch.
  repeat case_match; reflexivity.
Qed.

(** X6: when the body of the response parses to an array without [null]
    entries, [fetchProducts] makes it [allProducts] and splits it by
    category: an entry is in the bucket of a category exactly when it is in
    the data and has that category, and when every entry has one of the
    three categories the buckets together have as many entries as the data.
    Nothing is logged, the loading flag is cleared and the cart is not
    touched. *)
Theorem fetchProducts_partitions
    (JSON_parse : string → option value) (text : string) (data : list value)
    (w : Browser) (st : State) :
  JSON_parse text = Some (Arr data) →
  Forall not_Null data →
  ∃ st',
    fetchProducts JSON_parse (Body text) (w, st) = (fetch "/api/products" w, st')
    ∧ allProducts st' = Arr data
    ∧ (∀ c item, In item (bucket (displayedProducts st') c)
                 ↔ In item data ∧ category_of item = Some c)
    ∧ (Forall (fun item => is_Some (category_of item)) data →
       (length (bucket (displayedProducts st') material)
        + length (bucket (displayedProducts st') machine)
        + length (bucket (displayedProducts st') worker))%nat = length data)
    ∧ isLoading st' = false
    ∧ cart st' = cart st ∧ cartCount st' = cartCount st.
Proof.
  intros Hparse Hdata. unfold fetchProducts, fetchProducts_begin, fetchProducts_settle.
  rewrite Hparse, !(by_category_objects _ _ Hdata).
  eexists. split; [reflexivity|]. cbn.
  split; [reflexivity|]. split; [|split; [apply by_category_lengths | done]].
  intros c item. destruct c; cbn; by rewrite filter_In, kept_in_category.
Qed.

Lemma fetchProducts_partitions_witness :
  ∃ st',
    fetchProducts Sample.parse (Body Sample.stored_cart) (Sample.browser, initial)
    = (fetch "/api/products" Sample.browser, st')
    ∧ allProducts st' = Arr [Sample.cement; Sample.mixer]
    ∧ bucket (displayedProducts st') machine = [Sample.mixer].
Proof.
  destruct (fetchProducts_partitions Sample.parse Sample.stored_cart
              [Sample.cement; Sample.mixer] Sample.browser initial eq_refl)
    as (st' & Hrun & Hall & _).
  { repeat constructor. }
  exists st'. split; [exact Hrun|]. split; [exact Hall|].
  vm_compute in Hrun. by injection Hrun as <-.
Defined.

(** X19: a body that parses but is not an array of entries other than
    [null] replaces [allProducts] and leaves the buckets stale: the value
    is stored by line 76 before the filters are tried, the failure of the
    filters is logged, the buckets keep the catalog they had and the loading
    flag is cleared. *)
Theorem fetchProducts_stale_buckets
    (JSON_parse : string → option value) (text : string) (data : value)
    (w : Browser) (st : State) :
  JSON_parse text = Some data →
  (∀ items, data = Arr items → Exists (fun item => item = Null) items) →
  ∃ w' st',
    fetchProducts JSON_parse (Body text) (w, st) = (w', st')
    ∧ allProducts st' = data
    ∧ displayedProducts st' = displayedProducts st
    ∧ console w' = console w ++ ["Error fetching products:"]
    ∧ isLoading st' = false.
Proof.
  intros Hparse Hbad. unfold fetchProducts, fetchProducts_begin, fetchProducts_settle.
  rewrite Hparse.
  destruct data as [|b|n|s|items|props]; try (eexists _, _; by cbn).
  assert (by_category material items = Threw) as ->.
  { apply ArrayFacts.Array_filter_Threw.
    eapply Exists_impl; [exact (Hbad items eq_refl)|].
    intros item ->. reflexivity. }
  eexists _, _. by cbn.
Qed.

Lemma fetchProducts_stale_buckets_witness :
  ∃ w' st',
    fetchProducts Sample.parse (Body "[null]") (Sample.browser, Sample.stocked) = (w', st')
    ∧ allProducts st' = Arr [Null]
    ∧ displayedProducts st' = displayedProducts Sample.stocked
    ∧ console w' = console Sample.browser ++ ["Error fetching products:"]
    ∧ isLoading st' = false.
Proof.
  apply (fetchProducts_stale_buckets Sample.parse "[null]" (Arr [Null])
           Sample.browser Sample.stocked eq_refl).
  intros items [= <-]. by left.
Defined.

End CatalogFacts.

Module LoadingFacts.
Import JS Web Dashboard.

Local Open Scope list_scope.

(** X7: whatever way the request ends, one run of [fetchProducts] issues
    exactly one request and writes nothing to the storage; the loading flag
    is cleared and the cart, its counter, the search term and the selected
    product are as before. *)
Theorem fetchProducts_finally
    (JSON_parse : string → option value) (r : FetchResult)
    (w : Browser) (st : State) :
  let end_ := fetchProducts JSON_parse r (w, st) in
  requests end_.1 = requests w ++ ["/api/products"]
  ∧ localStorage end_.1 = localStorage w
  ∧ isLoading end_.2 = false
  ∧ cart end_.2 = cart st ∧ cartCount end_.2 = cartCount st
  ∧ searchTerm end_.2 = searchTerm st
  ∧ selectedProduct end_.2 = selectedProduct st.
Proof.
  cbn zeta. unfold fetchProducts, fetchProducts_begin, fetchProducts_settle,
    fetchProducts_catch.
  repeat case_match; by cbn.
Qed.

(** X8: [loadCart] only reads the storage: on every path the storage, the
    router and the request log are as before and at most the one line
    [Error loading cart:] is added to the console; when no text is stored
    under the key cart nothing changes at all; and a typed result differs
    from the state before in the cart and its counter only. *)
Theorem loadCart_reads_only
    (JSON_parse : string → option value) (w : Browser) (st : State) :
  let end_ := loadCart JSON_parse (w, st) in
  localStorage end_.1 = localStorage w
  ∧ route end_.1 = route w
  ∧ requests end_.1 = requests w
  ∧ (console end_.1 = console w ∨ console end_.1 = console w ++ ["Error loading cart:"])
  ∧ (getItem "cart" w = None → end_ = (w, Typed st))
  ∧ match end_.2 with
    | Typed st' => setCartCount (cartCount st) (setCart (cart st) st') = st
    | Untyped => True
    end.
Proof.
  cbn zeta. unfold loadCart, loadCart_catch.
  destruct st as [n term all shown c sel loading dark].
  destruct (getItem "cart" w) as [storedCart|]; [|by repeat split; auto].
  destruct (truthy storedCart); [|by repeat split; auto].
  destruct (JSON_parse storedCart) as [v|]; [|by cbn; repeat split; auto].
  destruct v as [|b|k|s|items|props]; by cbn; repeat split; auto.
Qed.

(** X9: what [addToCart] stores is what [loadCart] loads. When [JSON.parse]
    reads the text written by [addToCart] back as the array it was printed
    from, [loadCart] makes the cart the one that was in memory and the
    counter its length, from any state; and so do the effects of a
    dashboard that is mounted with a session. *)
Theorem loadCart_after_addToCart
    (JSON_parse : string → option value) (p : value)
    (w : Browser) (st st0 : State) (user : Auth.User) :
  let added := addToCart p (w, st) in
  JSON_parse (JSON_stringify (cart_to_value (cart added.2)))
    = Some (cart_to_value (cart added.2)) →
  (∃ st',
      loadCart JSON_parse (added.1, st0) = (added.1, Typed st')
      ∧ cart st' = cart st ++ [p]
      ∧ cartCount st' = Z.of_nat (length (cart st)) + 1)
  ∧ (∃ w' st',
        mount JSON_parse (Some user) (added.1, initial) = (w', Typed st')
        ∧ cart st' = cart st ++ [p]
        ∧ cartCount st' = Z.of_nat (length (cart st)) + 1).
Proof.
  cbn zeta. intros Hparse.
  rewrite DashboardFacts.addToCart_cart in Hparse.
  assert (∀ w1 st1,
            getItem "cart" w1 = Some (JSON_stringify (cart_to_value (cart st ++ [p]))) →
            ∃ st', loadCart JSON_parse (w1, st1) = (w1, Typed st')
                   ∧ cart st' = cart st ++ [p]
                   ∧ cartCount st' = Z.of_nat (length (cart st)) + 1
                   ∧ isLoading st' = isLoading st1) as Hload.
  { intros w1 st1 Hstored. unfold loadCart. rewrite Hstored.
    change (truthy (JSON_stringify (cart_to_value (cart st ++ [p])))) with true.
    cbn match. rewrite Hparse. unfold cart_to_value.
    eexists. split; [reflexivity|]. cbn. split; [reflexivity|].
    rewrite length_app. cbn [length]. split; [lia | reflexivity]. }
  pose proof (DashboardFacts.addToCart_stored p w st) as Hstored.
  split.
  - destruct (Hload _ st0 Hstored) as (st' & Hrun & Hcart & Hcount & _). by exists st'.
  - unfold mount, fetchProducts_begin.
    destruct (Hload (fetch "/api/products" (addToCart p (w, st)).1)
                (setIsLoading true initial) Hstored)
      as (st' & Hrun & Hcart & Hcount & _).
    rewrite Hrun. eexists _, _. split; [reflexivity|]. by cbn.
Qed.

Lemma loadCart_after_addToCart_witness :
  ∃ w' st',
    mount Sample.parse (Some Sample.alice)
      ((addToCart Sample.mixer (Sample.browser, Sample.one_in_cart)).1, initial)
    = (w', Typed st')
    ∧ cart st' = [Sample.cement; Sample.mixer]
    ∧ cartCount st' = 2.
Proof.
  apply (loadCart_after_addToCart Sample.parse Sample.mixer Sample.browser
           Sample.one_in_cart initial Sample.alice).
  reflexivity.
Defined.

End LoadingFacts.

Module ThemeFacts.
Import JS Web Dashboard.

Local Open Scope list_scope.

Lemma mount_darkClass
    (JSON_parse : string → option value) (user : Auth.User)
    (w : Browser) (st : State) :
  darkClass (mount JSON_parse (Some user) (w, st)).1
  = match getItem "darkMode" w with
    | Some s => String.eqb s "true"
    | None => false
    end.
Proof.
  unfold mount, fetchProducts_begin.
  destruct (loadCart JSON_parse (fetch "/api/products" w, setIsLoading true st))
    as [w1 loaded] eqn:Hload.
  pose proof (CatalogFacts.loadCart_localStorage JSON_parse
                (fetch "/api/products" w, setIsLoading true st)) as Hls.
  rewrite Hload in Hls. cbn in Hls.
  unfold getItem. rewrite Hls. by destruct loaded.
Qed.

Lemma mount_darkMode
    (JSON_parse : string → option value) (user : Auth.User)
    (w : Browser) (st st' : State) (w' : Browser) :
  mount JSON_parse (Some user) (w, st) = (w', Typed st') → darkMode st' = darkClass w'.
Proof.
  unfold mount, fetchProducts_begin.
  destruct (loadCart JSON_parse (fetch "/api/products" w, setIsLoading true st))
    as [w1 [st1|]]; [|discriminate].
  by intros [= <- <-].
Qed.

(** X10: a dashboard mounted with a session shows the stored theme. Its
    effects turn the dark class on exactly when the text stored under the
    key darkMode is [true], and the dark-mode cell of a typed state agrees
    with the class; so mounting with a session after [toggleDarkMode] shows
    the theme that the toggle chose. Mounted without a session, the
    dashboard leaves the class as it is. *)
Theorem mount_restores_theme
    (JSON_parse : string → option value) (user : Auth.User)
    (w : Browser) (st st0 : State) :
  (darkClass (mount JSON_parse (Some user) (w, st0)).1 = true
   ↔ getItem "darkMode" w = Some "true")
  ∧ (∀ st', (mount JSON_parse (Some user) (w, st0)).2 = Typed st' →
            darkMode st' = darkClass (mount JSON_parse (Some user) (w, st0)).1)
  ∧ darkClass (mount JSON_parse (Some user) ((toggleDarkMode (w, st)).1, st0)).1
    = negb (darkMode st)
  ∧ darkClass (mount JSON_parse None (w, st0)).1 = darkClass w.
Proof.
  split; [|split; [|split]].
  - rewrite mount_darkClass. destruct (getItem "darkMode" w) as [s|]; [|done].
    rewrite String.eqb_eq. split; [by intros -> | by intros [= ->]].
  - intros st' Hrun.
    destruct (mount JSON_parse (Some user) (w, st0)) as [w' o] eqn:Hmount.
    cbn in Hrun. subst o. by apply mount_darkMode in Hmount.
  - rewrite mount_darkClass. unfold toggleDarkMode, getItem. cbn.
    rewrite lookup_insert_eq. by destruct (darkMode st).
  - reflexivity.
Qed.

(** X11: [toggleDarkMode] flips the dark-mode cell and brings the stored
    text and the dark class in line with it; toggling twice gives back the
    cell it started from; and no toggle touches the stored cart or the cart
    in memory. *)
Theorem toggleDarkMode_twice (w : Browser) (st : State) :
  let once := toggleDarkMode (w, st) in
  let twice := toggleDarkMode once in
  darkMode once.2 = negb (darkMode st)
  ∧ darkClass once.1 = darkMode once.2
  ∧ getItem "darkMode" once.1 = Some (Boolean_toString (darkMode once.2))
  ∧ darkMode twice.2 = darkMode st
  ∧ getItem "darkMode" twice.1 = Some (Boolean_toString (darkMode st))
  ∧ getItem "cart" twice.1 = getItem "cart" w
  ∧ cart twice.2 = cart st ∧ cartCount twice.2 = cartCount st.
Proof.
  cbn zeta. unfold toggleDarkMode, getItem, Boolean_toString. cbn.
  rewrite !lookup_insert_eq, negb_involutive.
  repeat split.
  rewrite !lookup_insert_ne by discriminate. reflexivity.
Qed.

End ThemeFacts.

Module DialogFacts.
Import JS Web Dashboard.

Local Open Scope list_scope.

Lemma Array_some_single (f : value → completion bool) (x : value) :
  Array_some f [x] = f x.
Proof. cbn. by destruct (f x) as [[|]|]. Qed.

(** X12: after [addToCart] the answer of [isInCart] is the answer it gave
    before when that was true or a throw, and otherwise whether the product
    just added has the identifier asked for. *)
Theorem isInCart_after_addToCart (p : value) (ws : Browser * State) (i : number) :
  isInCart (addToCart p ws).2 i
  = match isInCart ws.2 i with
    | Returned false => has_id i p
    | answered => answered
    end.
Proof.
  destruct ws as [w st]. unfold isInCart.
  rewrite DashboardFacts.addToCart_cart, ArrayFacts.Array_some_snoc.
  by rewrite Array_some_single.
Qed.

Lemma isInCart_returns (st : State) (i : number) :
  Forall not_Null (cart st) → isInCart st i ≠ Threw.
Proof.
  unfold isInCart. induction 1 as [|item items Hitem _ IH]; [done|].
  cbn [Array_some]. destruct (has_id i item) as [[|]|] eqn:Hhas; [done | exact IH |].
  by apply ArrayFacts.has_id_returns in Hhas.
Qed.

Lemma id_of_get (p : value) (i : number) :
  id_of p = Some i → get "id" p = Returned (Some (Num i)) ∧ truthy_value p = true.
Proof.
  unfold id_of. destruct p as [|b|n|s|items|props]; cbn; try discriminate.
  destruct (assoc "id" props) as [[| |n| | |]|]; try discriminate. by intros [= ->].
Qed.

Lemma isInCart_false_fresh (st : State) (i : number) :
  isInCart st i = Returned false → ¬ In (Some i) (List.map id_of (cart st)).
Proof.
  unfold isInCart. induction (cart st) as [|item items IH]; [by intros _ []|].
  cbn [Array_some List.map]. destruct (has_id i item) as [[|]|] eqn:Hitem; try done.
  intros Hrest [Hhere|Hin]; [|by apply IH].
  apply ArrayFacts.has_id_true in Hhere. congruence.
Qed.

Lemma addToCart_distinct (p : value) (i : number) (w : Browser) (st : State) :
  id_of p = Some i → isInCart st i = Returned false → distinct_ids st →
  distinct_ids (addToCart p (w, st)).2.
Proof.
  unfold distinct_ids. intros Hid Hout Hnodup.
  rewrite DashboardFacts.addToCart_cart, map_app. cbn [List.map].
  apply NoDup_app. split; [exact Hnodup|]. split; [|apply NoDup_singleton].
  intros x Hx ->%list_elem_of_singleton. rewrite Hid in Hx.
  apply list_elem_of_In in Hx. by apply (isInCart_false_fresh st i).
Qed.

(** X13: with a product selected that has a number for identifier, and a
    cart without [null] entries, the button of the dialog leaves that
    product in the cart; it adds it only when no entry has its identifier,
    so a cart without repeated identifiers stays so; and when the product is
    already there the button only sends the router to the cart page. *)
Theorem dialogButton_adds_once (w : Browser) (st : State) (p : value) (i : number) :
  selectedProduct st = Some p →
  id_of p = Some i →
  Forall not_Null (cart st) →
  ∃ w' st',
    dialogButton (w, st) = (w', Typed st')
    ∧ isInCart st' i = Returned true
    ∧ (distinct_ids st → distinct_ids st')
    ∧ (isInCart st i = Returned true → (w', st') = (router_push "/cart" w, st))
    ∧ (isInCart st i = Returned false → (w', st') = addToCart p (w, st)).
Proof.
  intros Hsel Hid Hobjects.
  destruct (id_of_get p i Hid) as [Hget Htruthy].
  unfold dialogButton. rewrite Hsel, Htruthy, Hget.
  destruct (isInCart st i) as [[|]|] eqn:Hin.
  - eexists _, _. repeat split; auto. discriminate.
  - exists (addToCart p (w, st)).1, (addToCart p (w, st)).2.
    split; [reflexivity|]. split; [|split; [|split]].
    + rewrite (isInCart_after_addToCart p (w, st)). cbn [snd]. rewrite Hin.
      by apply ArrayFacts.has_id_true.
    + by apply (addToCart_distinct p i).
    + discriminate.
    + intros _. by destruct (addToCart p (w, st)).
  - exfalso. by apply (isInCart_returns st i Hobjects).
Qed.

Lemma dialogButton_adds_once_witness :
  let st := openProductDialog Sample.mixer Sample.one_in_cart in
  ∃ w' st',
    dialogButton (Sample.browser, st) = (w', Typed st')
    ∧ isInCart st' (Int 2) = Returned true
    ∧ distinct_ids st'.
Proof.
  cbn zeta.
  destruct (dialogButton_adds_once Sample.browser
              (openProductDialog Sample.mixer Sample.one_in_cart) Sample.mixer (Int 2)
              eq_refl eq_refl)
    as (w' & st' & Hrun & Hin & Hdistinct & _).
  { repeat constructor. }
  exists w', st'. split; [exact Hrun|]. split; [exact Hin|]. apply Hdistinct.
  unfold distinct_ids. cbn. apply NoDup_singleton.
Defined.

(** X14: pressing the button of the dialog twice in a row adds at most one
    entry: when the first press leaves a typed state, so does the second,
    and after it the cart, its counter and the stored cart are what they
    were after the first. *)
Theorem dialogButton_twice (ws : Browser * State) (w1 : Browser) (st1 : State) :
  dialogButton ws = (w1, Typed st1) →
  ∃ w2 st2,
    dialogButton (w1, st1) = (w2, Typed st2)
    ∧ cart st2 = cart st1
    ∧ cartCount st2 = cartCount st1
    ∧ getItem "cart" w2 = getItem "cart" w1.
Proof.
  destruct ws as [w st]. intros Hfirst.
  assert (dialogButton (w, st) = (w1, Typed st1)) as Hagain by exact Hfirst.
  unfold dialogButton in Hfirst.
  destruct (selectedProduct st) as [p|] eqn:Hsel.
  - destruct (truthy_value p) eqn:Htruthy.
    + destruct (get "id" p) as [[[| |i| | |]|]|] eqn:Hget; try discriminate.
      destruct (isInCart st i) as [[|]|] eqn:Hin.
      * injection Hfirst as <- <-. eexists _, _.
        split; [unfold dialogButton; by rewrite Hsel, Htruthy, Hget, Hin | done].
      * cbn [typed fst snd] in Hfirst. injection Hfirst as <- <-.
        eexists _, _. split; [reflexivity | done].
      * injection Hfirst as <- <-. eexists _, _. split; [exact Hagain | done].
    + injection Hfirst as <- <-. eexists _, _. split; [exact Hagain | done].
  - injection Hfirst as <- <-. eexists _, _. split; [exact Hagain | done].
Qed.

Lemma dialogButton_twice_witness :
  let first := dialogButton
                 (Sample.browser, openProductDialog Sample.mixer Sample.one_in_cart) in
  ∃ w1 st1 w2 st2,
    first = (w1, Typed st1)
    ∧ dialogButton (w1, st1) = (w2, Typed st2)
    ∧ cart st2 = [Sample.cement; Sample.mixer]
    ∧ cartCount st2 = 2.
Proof.
  cbn zeta.
  destruct (dialogButton
              (Sample.browser, openProductDialog Sample.mixer Sample.one_in_cart))
    as [w1 [st1|]] eqn:Hfirst; [|discriminate].
  destruct (dialogButton_twice _ w1 st1 Hfirst) as (w2 & st2 & Hsecond & Hcart & Hcount & _).
  exists w1, st1, w2, st2. split; [reflexivity|]. split; [exact Hsecond|].
  vm_compute in Hfirst. injection Hfirst as <- <-.
  rewrite Hcart, Hcount. split; reflexivity.
Defined.

End DialogFacts.

Module SearchFacts.
Import JS Web Dashboard.

Local Open Scope list_scope.

Lemma filter_filter_implied {A : Type} (f g : A → bool) (l : list A) :
  (∀ x, g x = true → f x = true) →
  List.filter g (List.filter f l) = List.filter g l.
Proof.
  intros Himp. induction l as [|x l IH]; [done|].
  cbn [List.filter]. destruct (f x) eqn:Hf.
  - cbn [List.filter]. by rewrite IH.
  - destruct (g x) eqn:Hg; [|exact IH].
    apply Himp in Hg. congruence.
Qed.

(** X15: refining a search filters the list already shown. When the
    lower-cased term [t1] is a segment of the lower-cased term [t2], the
    list for [t2] is the list for [t1] with exactly those products kept
    whose lower-cased name has the lower-cased [t2] as a segment; so every
    product listed for [t2] is listed for [t1]. *)
Theorem filteredProducts_narrows
    (toLowerCase : string → string) (st : State) (c : Category) (t1 t2 : string) :
  Forall (fun item => is_Some (name_of item)) (bucket (displayedProducts st) c) →
  contains_lowered toLowerCase t2 t1 →
  ∃ listed1 listed2,
    filteredProducts toLowerCase (setSearchTerm t1 st) c = Returned listed1
    ∧ filteredProducts toLowerCase (setSearchTerm t2 st) c = Returned listed2
    ∧ (∃ keep : value → bool,
          (∀ item s, name_of item = Some s →
                     (keep item = true ↔ contains_lowered toLowerCase s t2))
          ∧ listed2 = List.filter keep listed1)
    ∧ (∀ item, In item listed2 → In item listed1).
Proof.
  intros Hnamed Hsub%StringFacts.includes_spec.
  rewrite (DashboardFacts.filteredProducts_named toLowerCase (setSearchTerm t1 st) c Hnamed).
  rewrite (DashboardFacts.filteredProducts_named toLowerCase (setSearchTerm t2 st) c Hnamed).
  cbn [searchTerm setSearchTerm displayedProducts].
  eexists _, _. split; [reflexivity|]. split; [reflexivity|].
  assert (List.filter
            (fun item => match name_of item with
                         | Some s => includes (toLowerCase s) (toLowerCase t2)
                         | None => false
                         end) (bucket (displayedProducts st) c)
          = List.filter
              (fun item => match name_of item with
                           | Some s => includes (toLowerCase s) (toLowerCase t2)
                           | None => false
                           end)
              (List.filter
                 (fun item => match name_of item with
                              | Some s => includes (toLowerCase s) (toLowerCase t1)
                              | None => false
                              end) (bucket (displayedProducts st) c))) as Heq.
  { symmetry. apply filter_filter_implied. intros item.
    destruct (name_of item) as [s|]; [|done].
    intros Hs. by eapply StringFacts.includes_trans. }
  split.
  - eexists. split; [|exact Heq].
    intros item s Hs. cbn beta. rewrite Hs. apply StringFacts.includes_spec.
  - intros item. rewrite Heq, filter_In. tauto.
Qed.

Lemma filteredProducts_narrows_witness :
  contains_lowered Sample.toLowerCase "MIXER" "mix"
  ∧ ∃ listed1 listed2,
      filteredProducts Sample.toLowerCase (setSearchTerm "mix" Sample.stocked) machine
      = Returned listed1
      ∧ filteredProducts Sample.toLowerCase (setSearchTerm "MIXER" Sample.stocked) machine
        = Returned listed2
      ∧ ∀ item, In item listed2 → In item listed1.
Proof.
  assert (contains_lowered Sample.toLowerCase "MIXER" "mix") as Hsub.
  { exists "", "er". reflexivity. }
  split; [exact Hsub|].
  destruct (filteredProducts_narrows Sample.toLowerCase Sample.stocked machine
              "mix" "MIXER") as (l1 & l2 & H1 & H2 & _ & Hin).
  { repeat constructor. by eexists. }
  { exact Hsub. }
  by exists l1, l2.
Defined.

End SearchFacts.

Module PageFacts.
Import JS Web Dashboard.

Local Open Scope list_scope.

(** What one event of the page can do to the cart: nothing, or the one
    [addToCart] that the button of the dialog makes for a product whose
    identifier no entry of the cart has. *)
Lemma on_page_step
    (JSON_parse : string → option value) (e : event) (ws : Browser * State)
    (w' : Browser) (st' : State) :
  on_page e = true → run JSON_parse e ws = (w', Typed st') →
  (cart st' = cart ws.2 ∧ cartCount st' = cartCount ws.2
   ∧ getItem "cart" w' = getItem "cart" ws.1)
  ∨ (∃ p i, id_of p = Some i ∧ isInCart ws.2 i = Returned false
            ∧ (w', st') = addToCart p ws).
Proof.
  destruct ws as [w st]. intros Hpage Hrun.
  destruct e; try discriminate; cbn [run typed fst snd] in Hrun.
  - injection Hrun as <- <-. by left.
  - left. unfold fetchProducts_settle, fetchProducts_catch in Hrun.
    unfold typed in Hrun. repeat case_match; cbn in Hrun; simplify_eq; by cbn.
  - injection Hrun as <- <-. by left.
  - injection Hrun as <- <-. by left.
  - injection Hrun as <- <-. by left.
  - injection Hrun as <- <-. by left.
  - unfold dialogButton in Hrun.
    destruct (selectedProduct st) as [p|]; [|injection Hrun as <- <-; by left].
    destruct (truthy_value p); [|injection Hrun as <- <-; by left].
    destruct (get "id" p) as [[[| |i| | |]|]|] eqn:Hget; try discriminate.
    destruct (isInCart st i) as [[|]|] eqn:Hin.
    + injection Hrun as <- <-. by left.
    + right. exists p, i. split; [by unfold id_of; rewrite Hget|].
      split; [exact Hin|]. cbn [typed fst snd] in Hrun.
      destruct (addToCart p (w, st)) as [w2 st2]. by injection Hrun as <- <-.
    + injection Hrun as <- <-. by left.
  - injection Hrun as <- <-. left. repeat split.
    unfold getItem. cbn. apply lookup_insert_ne. discriminate.
Qed.

Lemma run_all_on_page
    (JSON_parse : string → option value) (P : Browser * State → Prop) :
  (∀ e ws w' st', on_page e = true → run JSON_parse e ws = (w', Typed st') →
                  P ws → P (w', st')) →
  ∀ es ws w' st',
    forallb on_page es = true → run_all JSON_parse es ws = (w', Typed st') →
    P ws → P (w', st').
Proof.
  intros Hstep es. induction es as [|e es IH]; intros ws w' st' Hall Hrun HP.
  - destruct ws as [w st]. cbn in Hrun. by injection Hrun as <- <-.
  - cbn [forallb] in Hall. apply andb_prop in Hall as [He Hes].
    cbn [run_all] in Hrun.
    destruct (run JSON_parse e ws) as [w1 [st1|]] eqn:Hfirst; [|discriminate].
    eapply IH; eauto.
Qed.

Lemma page_events_append
    (JSON_parse : string → option value) (es : list event) :
  ∀ ws w' st',
    forallb on_page es = true →
    run_all JSON_parse es ws = (w', Typed st') →
    ∃ added, cart st' = cart ws.2 ++ added
             ∧ cartCount st' = cartCount ws.2 + Z.of_nat (length added).
Proof.
  induction es as [|e es IH]; intros ws w' st' Hall Hrun.
  - destruct ws as [w st]. cbn in Hrun. injection Hrun as <- <-.
    exists []. rewrite app_nil_r. split; [done | cbn; lia].
  - cbn [forallb] in Hall. apply andb_prop in Hall as [He Hes].
    cbn [run_all] in Hrun.
    destruct (run JSON_parse e ws) as [w1 [st1|]] eqn:Hfirst; [|discriminate].
    destruct (IH _ _ _ Hes Hrun) as (added & Hcart & Hcount). cbn [snd] in *.
    destruct (on_page_step _ _ _ _ _ He Hfirst) as [(Hc & Hn & _) | (p & i & _ & _ & Hadd)].
    + exists added. by rewrite Hcart, Hcount, Hc, Hn.
    + exists (p :: added). destruct ws as [w st].
      assert (st1 = (addToCart p (w, st)).2) as -> by by rewrite <- Hadd.
      rewrite Hcart, Hcount.
      rewrite DashboardFacts.addToCart_cart, DashboardFacts.addToCart_cartCount.
      cbn [snd length]. rewrite <- app_assoc. split; [done | lia].
Qed.

(** X17: the page never removes an entry and never repeats an identifier.
    Over any sequence of events of the page that leaves the state typed, the
    cart at the end is the cart at the start followed by the entries added,
    the counter has grown by their number, and a cart without repeated
    identifiers stays so. *)
Theorem page_events_grow_cart
    (JSON_parse : string → option value) (es : list event)
    (ws : Browser * State) (w' : Browser) (st' : State) :
  forallb on_page es = true →
  run_all JSON_parse es ws = (w', Typed st') →
  (∃ added, cart st' = cart ws.2 ++ added
            ∧ cartCount st' = cartCount ws.2 + Z.of_nat (length added))
  ∧ (distinct_ids ws.2 → distinct_ids st').
Proof.
  intros Hall Hrun. split; [by eapply page_events_append|].
  apply (run_all_on_page JSON_parse (fun ws => distinct_ids ws.2)
           ltac:(clear; intros e ws w' st' He Hrun Hdistinct;
                 destruct (on_page_step _ _ _ _ _ He Hrun)
                   as [(Hc & _ & _) | (p & i & Hid & Hout & Hadd)];
                 [ unfold distinct_ids in *; cbn [snd] in *; by rewrite Hc
                 | destruct ws as [w st];
                   assert (st' = (addToCart p (w, st)).2) as -> by (by rewrite <- Hadd);
                   by apply (DialogFacts.addToCart_distinct p i) ])
           es ws w' st' Hall Hrun).
Qed.

Lemma page_events_grow_cart_witness :
  let es := [CardClick Sample.mixer; DialogButton; CardClick Sample.mixer;
             DialogButton; SearchInput "mix"; ToggleDarkMode] in
  ∃ w' st',
    run_all Sample.parse es (Sample.browser, Sample.one_in_cart) = (w', Typed st')
    ∧ (∃ added, cart st' = cart Sample.one_in_cart ++ added
                ∧ cartCount st' = cartCount Sample.one_in_cart + Z.of_nat (length added))
    ∧ distinct_ids st'.
Proof.
  cbn zeta. eexists _, _. split; [vm_compute; reflexivity|].
  match goal with
  | |- (∃ added, cart ?st = _ ∧ _) ∧ _ =>
      destruct (page_events_grow_cart Sample.parse
                  [CardClick Sample.mixer; DialogButton; CardClick Sample.mixer;
                   DialogButton; SearchInput "mix"; ToggleDarkMode]
                  (Sample.browser, Sample.one_in_cart) _ st eq_refl eq_refl)
        as [Hgrow Hdistinct]
  end.
  split; [exact Hgrow|]. apply Hdistinct.
  unfold distinct_ids. cbn. apply NoDup_singleton.
Defined.

(** X18: once the stored cart is the JSON text of the cart in memory, the
    events of the page keep it so: the button of the dialog rewrites the
    text with every entry it adds, and nothing else on the page writes the
    key cart. *)
Theorem page_events_keep_cart_persisted
    (JSON_parse : string → option value) (es : list event)
    (ws : Browser * State) (w' : Browser) (st' : State) :
  forallb on_page es = true →
  run_all JSON_parse es ws = (w', Typed st') →
  cart_persisted ws → cart_persisted (w', st').
Proof.
  revert es ws w' st'. apply (run_all_on_page JSON_parse cart_persisted).
  intros e ws w' st' He Hrun Hp.
  destruct (on_page_step _ _ _ _ _ He Hrun) as [(Hc & _ & Hk) | (p & i & _ & _ & Hadd)].
  - unfold cart_persisted in *. cbn [fst snd] in *. by rewrite Hc, Hk.
  - destruct ws as [w st]. rewrite Hadd. unfold cart_persisted.
    rewrite DashboardFacts.addToCart_stored. by rewrite DashboardFacts.addToCart_cart.
Qed.

Lemma page_events_keep_cart_persisted_witness :
  let start := addToCart Sample.cement (Sample.browser, initial) in
  let es := [CardClick Sample.mixer; DialogButton; ToggleDarkMode] in
  cart_persisted start
  ∧ ∃ w' st', run_all Sample.parse es start = (w', Typed st')
              ∧ getItem "cart" w' = Some Sample.stored_cart
              ∧ cart_persisted (w', st').
Proof.
  cbn zeta.
  assert (cart_persisted (addToCart Sample.cement (Sample.browser, initial))) as Hstart.
  { unfold cart_persisted. apply DashboardFacts.addToCart_stored. }
  split; [exact Hstart|].
  eexists _, _. split; [vm_compute; reflexivity|]. split; [reflexivity|].
  match goal with
  | |- cart_persisted (?w, ?st) =>
      apply (page_events_keep_cart_persisted Sample.parse
               [CardClick Sample.mixer; DialogButton; ToggleDarkMode]
               (addToCart Sample.cement (Sample.browser, initial)) w st
               eq_refl eq_refl Hstart)
  end.
Defined.

End PageFacts.

Module MountFacts.
Import JS Web Dashboard.

Local Open Scope list_scope.

(** X20: a dashboard rendered without a session registers only the effect
    that sends the router to the entry page: no request is issued and
    neither the storage nor a cell changes. Rendered with a session it
    issues exactly one request, writes nothing to the storage and sends the
    router nowhere; a typed state after its effects is still loading, since
    the request has not settled, and with no text stored under the key cart
    the cart and its counter are as before. *)
Theorem mount_reads_only
    (JSON_parse : string → option value) (user : Auth.User)
    (w : Browser) (st : State) :
  mount JSON_parse None (w, st) = (router_push "/" w, Typed st)
  ∧ let end_ := mount JSON_parse (Some user) (w, st) in
    requests end_.1 = requests w ++ ["/api/products"]
    ∧ localStorage end_.1 = localStorage w
    ∧ route end_.1 = route w
    ∧ match end_.2 with
      | Typed st' =>
          isLoading st' = true
          ∧ (getItem "cart" w = None → cart st' = cart st ∧ cartCount st' = cartCount st)
      | Untyped => True
      end.
Proof.
  split; [reflexivity|].
  cbn zeta. unfold mount, fetchProducts_begin, loadCart, loadCart_catch.
  change (getItem "cart" (fetch "/api/products" w)) with (getItem "cart" w).
  destruct (getItem "cart" w) as [storedCart|]; [|by cbn].
  destruct (truthy storedCart); [|by cbn].
  destruct (JSON_parse storedCart) as [v|]; [|by cbn].
  destruct v as [|b|k|s|items|props]; by cbn.
Qed.

End MountFacts.

(** ** Worked examples *)

Module Examples.
Import JS Web.

Local Open Scope list_scope.

Example stringify_array :
  JSON_stringify (Arr [Num (Int 1); Null; Bool true; Arr []; Num (Int (-20));
                       Num (Frac "12.5")])
  = "[1,null,true,[],-20,12.5]".
Proof. reflexivity. Qed.

Example stringify_string :
  JSON_stringify (Str "a\b")
  = String dquote (String "a" (String backslash (String backslash
      (String "b" (String dquote EmptyString))))).
Proof. reflexivity. Qed.

Example stringify_user_length :
  String.length (JSON_stringify (Auth.User_to_value
    (Auth.mkUser "1700000000000" "a@b.com" "alice" Auth.consumer))) = 77%nat.
Proof. reflexivity. Qed.

Example includes_mixed_case :
  includes (Sample.toLowerCase "Portland Cement") (Sample.toLowerCase "CEM") = true
  ∧ includes (Sample.toLowerCase "Portland Cement") (Sample.toLowerCase "mixer") = false.
Proof. split; reflexivity. Qed.

Example parse_reads_back :
  Sample.parse Sample.stored_cart
  = Some (Dashboard.cart_to_value [Sample.cement; Sample.mixer])
  ∧ Sample.parse "" = None.
Proof. split; reflexivity. Qed.

(** A user stored by another program, with the properties in another
    order and one more, is restored all the same. *)
Example restore_other_order :
  Auth.as_User (Obj [("role", Str "consumer"); ("username", Str "alice");
                     ("theme", Str "dark"); ("id", Str "7"); ("email", Str "a@b.com")])
  = Some (Auth.mkUser "7" "a@b.com" "alice" Auth.consumer).
Proof. reflexivity. Qed.

(** A catalog of three products, one per category, searched for [MIX]. *)
Example filtered_by_term :
  let listed := Dashboard.setSearchTerm "MIX" Sample.stocked in
  Dashboard.filteredProducts Sample.toLowerCase listed Dashboard.machine
  = Returned [Sample.mixer]
  ∧ Dashboard.filteredProducts Sample.toLowerCase listed Dashboard.material
    = Returned [].
Proof. split; reflexivity. Qed.

(** An entry without a name makes the list throw. *)
Example filtered_without_name :
  Dashboard.filteredProducts Sample.toLowerCase
    (Dashboard.setDisplayedProducts
       (Dashboard.mkDisplayed [Obj [("category", Str "material")]] [] [])
       Dashboard.initial)
    Dashboard.material
  = Threw.
Proof. reflexivity. Qed.

(** [some] stops at the first entry with the identifier, and throws at a
    [null] entry that comes before it. *)
Example isInCart_null_entry :
  Dashboard.isInCart (Dashboard.setCart [Sample.cement; Null] Dashboard.initial) (Int 1)
  = Returned true
  ∧ Dashboard.isInCart (Dashboard.setCart [Null; Sample.cement] Dashboard.initial) (Int 1)
    = Threw.
Proof. split; reflexivity. Qed.

(** The same product added twice is held twice. *)
Example duplicates_kept :
  let ws := Dashboard.addToCart_each [Sample.cement; Sample.cement]
              (Sample.browser, Dashboard.initial) in
  Dashboard.cart ws.2 = [Sample.cement; Sample.cement]
  ∧ Dashboard.cartCount ws.2 = 2.
Proof. split; reflexivity. Qed.

(** The scenario of the specification: log in, add a product, log out. *)
Example scenario :
  let '(w1, session1) := Auth.login "a@b.com" "alice" (Sample.browser, Auth.initial) in
  let '(w2, dash2) := Dashboard.addToCart Sample.cement (w1, Dashboard.initial) in
  let '(w3, session3) := Auth.logout (w2, session1) in
  (Auth.username <$> Auth.user session1) = Some "alice"
  ∧ length (Dashboard.cart dash2) = 1%nat
  ∧ Dashboard.isInCart dash2 (Int 1) = Returned true
  ∧ Auth.isLoggedIn w3 = false
  ∧ getItem "cart" w3 = getItem "cart" w2
  ∧ getItem "cart" w3
    = Some (JSON_stringify (Dashboard.cart_to_value [Sample.cement])).
Proof. vm_compute. repeat split. Qed.

End Examples.
